(** * provider-gitlab: the project access token reconciler

    A shallow embedding of the access token controller
    (package [accesstokens]), of the observation model of package
    [v1alpha1] and of the option builder of package [projects], together
    with the properties of the reconciliation state machine and of the
    rotation-timing algorithm.

    Go values are embedded as follows.
    - [time.Duration] is an [int64] count of nanoseconds: a [Z], with the
      wrap-around of its arithmetic written out ([wrap64]).
    - [time.Time] is an instant: a [Z] counting nanoseconds since Go's
      zero time (January 1, year 1, 00:00:00 UTC), the origin [Truncate]
      rounds against.  The current time is an explicit input [now].
    - a pointer field is an [option]; dereferencing [None] panics.
    - a method that mutates its receiver returns the new receiver.
    - a remote call is a field of the client record; every operation
      returns, next to its Go results, the resource as it left it and the
      list of remote calls it made. *)

From Stdlib Require Import ZArith Lia Bool List String Ascii.
From Stdlib Require Import DecimalString DecimalPos.
Import ListNotations.
Open Scope string_scope.
Open Scope Z_scope.

(** ** Package [time] *)
Module GoTime.

Definition Duration := Z.
Definition Time := Z.

Definition MinInt64 : Z := - 2 ^ 63.
Definition MaxInt64 : Z := 2 ^ 63 - 1.

Definition minDuration : Duration := MinInt64.
Definition maxDuration : Duration := MaxInt64.

Definition Nanosecond : Duration := 1.
Definition Second : Duration := 1000000000 * Nanosecond.
Definition Minute : Duration := 60 * Second.
Definition Hour : Duration := 60 * Minute.

(** The values an [int64] holds. *)
Definition int64 (z : Z) : Prop := MinInt64 <= z <= MaxInt64.

Definition int64b (z : Z) : bool := (MinInt64 <=? z) && (z <=? MaxInt64).

(** Two's complement wrap-around of an [int64] result. *)
Definition wrap64 (z : Z) : Z := (z + 2 ^ 63) mod 2 ^ 64 - 2 ^ 63.

(** [d1 * d2] on [Duration]. *)
Definition Duration_mul (d1 d2 : Duration) : Duration := wrap64 (d1 * d2).

(** [func (d Duration) Abs() Duration]: the minimum is converted to the
    maximum. *)
Definition Duration_Abs (d : Duration) : Duration :=
  if 0 <=? d then d
  else if d =? minDuration then maxDuration
  else - d.

(** [func (t Time) Add(d Duration) Time] *)
Definition Add (t : Time) (d : Duration) : Time := t + d.

(** [func (t Time) Sub(u Time) Duration]: saturates at the ends of
    [Duration]. *)
Definition Sub (t u : Time) : Duration :=
  let d := t - u in
  if int64b d then d
  else if t <? u then minDuration
  else maxDuration.

(** [func (t Time) Before(u Time) bool] *)
Definition Before (t u : Time) : bool := t <? u.

(** [func (t Time) Equal(u Time) bool] *)
Definition Equal (t u : Time) : bool := t =? u.

(** [func (t Time) Truncate(d Duration) Time]: rounds [t] down to a
    multiple of [d] since the zero time; [t] itself when [d <= 0]. *)
Definition Truncate (t : Time) (d : Duration) : Time :=
  if d <=? 0 then t else t - t mod d.

(** The builtin [max] at [Duration]. *)
Definition max (a b : Duration) : Duration := Z.max a b.

End GoTime.

(** ** Errors: [errors.New], [errors.Wrap] and [strconv.NumError] *)
Inductive error : Type :=
| errors_New (msg : string)
| Wrapped (cause : error) (msg : string)
| NumError (func num : string) (outOfRange : bool).

(** [errors.Wrap(err, msg)]: [nil] when [err] is [nil]. *)
Definition errors_Wrap (err : option error) (msg : string) : option error :=
  match err with
  | None => None
  | Some e => Some (Wrapped e msg)
  end.

Inductive result (A : Type) : Type :=
| Ok (a : A)
| Fail (e : error).
Arguments Ok {A} a.
Arguments Fail {A} e.

(** ** Package [strconv] *)
Module Strconv.

Definition digit_of (c : ascii) : option Z :=
  let n := Z.of_N (N_of_ascii c) in
  if (48 <=? n) && (n <=? 57) then Some (n - 48) else None.

Fixpoint digits (s : string) (acc : Z) : option Z :=
  match s with
  | EmptyString => Some acc
  | String c r =>
      match digit_of c with
      | Some d => digits r (acc * 10 + d)
      | None => None
      end
  end.

Definition is_sign (c : ascii) : bool :=
  (Ascii.eqb c "-" || Ascii.eqb c "+")%char.

Definition syntaxError (s : string) : error := NumError "Atoi" s false.
Definition rangeError (s : string) : error := NumError "Atoi" s true.

(** The fast path of [Atoi], taken by strings of 1 to 18 bytes, which fit
    [int]: an optional sign, then at least one decimal digit. *)
Definition Atoi_fast (s0 : string) : result Z :=
  match s0 with
  | EmptyString => Fail (syntaxError s0)
  | String c r =>
      let s := if is_sign c then r else s0 in
      match s with
      | EmptyString => Fail (syntaxError s0)
      | _ =>
          match digits s 0 with
          | None => Fail (syntaxError s0)
          | Some n => Ok (if Ascii.eqb c "-"%char then - n else n)
          end
      end
  end.

Definition maxUint64 : Z := 2 ^ 64 - 1.

(** How the digit loop of [ParseUint] ends. *)
Inductive scan : Type :=
| ScanOk (n : Z)
| ScanSyntax
| ScanRange.

(** The loop of [ParseUint(s, 10, 64)]: a byte that is not a decimal digit
    is a syntax error; a digit that would take the number past [uint64]
    is a range error, reported as soon as it is read. *)
Fixpoint ParseUint_loop (s : string) (n : Z) : scan :=
  match s with
  | EmptyString => ScanOk n
  | String c r =>
      match digit_of c with
      | None => ScanSyntax
      | Some d =>
          if maxUint64 / 10 + 1 <=? n then ScanRange
          else
            let n1 := n * 10 + d in
            if maxUint64 <? n1 then ScanRange else ParseUint_loop r n1
      end
  end.

(** The slow path of [Atoi]: [ParseInt(s, 10, 0)] with its errors
    relabelled to "Atoi". *)
Definition Atoi_slow (s0 : string) : result Z :=
  match s0 with
  | EmptyString => Fail (syntaxError s0)
  | String c r =>
      let neg := Ascii.eqb c "-"%char in
      let s := if is_sign c then r else s0 in
      match s with
      | EmptyString => Fail (syntaxError s0)
      | _ =>
          match ParseUint_loop s 0 with
          | ScanSyntax => Fail (syntaxError s0)
          | ScanRange => Fail (rangeError s0)
          | ScanOk un =>
              if negb neg && (2 ^ 63 <=? un) then Fail (rangeError s0)
              else if neg && (2 ^ 63 <? un) then Fail (rangeError s0)
              else Ok (if neg then - un else un)
          end
      end
  end.

(** [func Atoi(s string) (int, error)] on a 64-bit platform. *)
Definition Atoi (s : string) : result Z :=
  let sLen := Z.of_nat (String.length s) in
  if (0 <? sLen) && (sLen <? 19) then Atoi_fast s else Atoi_slow s.

(** [func Itoa(i int) string] *)
Definition Itoa (i : Z) : string := NilZero.string_of_int (Z.to_int i).

End Strconv.

(** ** Package [gitlab] (the client library): the records it returns *)
Module Gitlab.

(** [gitlab.ProjectAccessToken], the fields the controller reads. *)
Record ProjectAccessToken : Type := {
  ID : Z;
  Name : string;
  CreatedAt : option GoTime.Time;
  ExpiresAt : option GoTime.Time;
  Active : bool;
  Revoked : bool;
  Token : string;
  AccessLevel : Z
}.

(** [gitlab.Response]: the HTTP response of a call. *)
Record Response : Type := { StatusCode : Z }.

Record CreateProjectAccessTokenOptions : Type := {
  OptName : option string;
  OptScopes : option (list string);
  OptAccessLevel : option Z;
  OptExpiresAt : option GoTime.Time
}.

Record RotateProjectAccessTokenOptions : Type := {
  RotExpiresAt : option GoTime.Time
}.

End Gitlab.

(** ** Package [v1alpha1]: desired and observed state *)
Module V1alpha1.

(** [DefaultAccessTokenMaxDuration = 365 * 24 * time.Hour] *)
Definition DefaultAccessTokenMaxDuration : GoTime.Duration :=
  365 * 24 * GoTime.Hour.

(** [xpv1.Reference] and [xpv1.Selector], by the fields that name the
    referenced project. *)
Record Reference : Type := { RefName : string }.

Record Selector : Type := {
  MatchLabels : list (string * string);
  MatchControllerRef : option bool
}.

Definition AccessLevelValue := Z.

(** [type AccessTokenParameters struct] *)
Record AccessTokenParameters : Type := {
  ProjectID : option string;
  ProjectIDRef : option Reference;
  ProjectIDSelector : option Selector;
  ExpiresAt : option GoTime.Time;
  RotateThreshold : option GoTime.Duration;
  AccessLevel : option AccessLevelValue;
  Scopes : list string;
  Name : string
}.

(** [type AccessTokenObservation struct] *)
Record AccessTokenObservation : Type := {
  TokenID : option Z;
  ObsExpiresAt : option GoTime.Time;
  ObsCreatedAt : option GoTime.Time;
  ObsName : option string;
  ObsRevoked : option bool;
  ObsActive : option bool
}.

(** The zero value of the struct: nothing observed yet. *)
Definition emptyObservation : AccessTokenObservation :=
  {| TokenID := None; ObsExpiresAt := None; ObsCreatedAt := None;
     ObsName := None; ObsRevoked := None; ObsActive := None |}.

(** [func (at *AccessTokenObservation) IsRevoked() bool] *)
Definition IsRevoked (at_ : AccessTokenObservation) : bool :=
  match ObsRevoked at_ with
  | None => false
  | Some r => r
  end.

(** [func (at *AccessTokenObservation) ExpiresWithin(d time.Duration) bool];
    [now] is the value of [time.Now()]. *)
Definition ExpiresWithin (at_ : AccessTokenObservation)
    (d : GoTime.Duration) (now : GoTime.Time) : bool :=
  match ObsExpiresAt at_ with
  | None => false
  | Some e => GoTime.Before (GoTime.Add e (- GoTime.Duration_Abs d)) now
  end.

(** [func (at *AccessTokenObservation) TotalDuration() time.Duration] *)
Definition TotalDuration (at_ : AccessTokenObservation) : GoTime.Duration :=
  match ObsExpiresAt at_, ObsCreatedAt at_ with
  | Some e, Some c => GoTime.Sub e c
  | _, _ => DefaultAccessTokenMaxDuration
  end.

(** [func (at *AccessTokenObservation) CopyFromToken(accessToken
    *gitlab.ProjectAccessToken)]: the receiver after the call.  The two
    timestamps are assigned only under their [!= nil] tests. *)
Definition CopyFromToken (at_ : AccessTokenObservation)
    (accessToken : Gitlab.ProjectAccessToken) : AccessTokenObservation :=
  {| TokenID := Some (Gitlab.ID accessToken);
     ObsName := Some (Gitlab.Name accessToken);
     ObsActive := Some (Gitlab.Active accessToken);
     ObsRevoked := Some (Gitlab.Revoked accessToken);
     ObsCreatedAt :=
       match Gitlab.CreatedAt accessToken with
       | Some c => Some c
       | None => ObsCreatedAt at_
       end;
     ObsExpiresAt :=
       match Gitlab.ExpiresAt accessToken with
       | Some e => Some e
       | None => ObsExpiresAt at_
       end |}.

(** Modelled from the spec: [DeepCopy] is generated code
    (zz_generated.deepcopy.go) that is not under src; the spec calls it
    "a structural copy of DesiredState before mutation".  Values of the
    embedding are immutable, so the copy is the value. *)
Definition DeepCopy (p : AccessTokenParameters) : AccessTokenParameters := p.

(** *** [cmp.Equal] at [*AccessTokenParameters]: field by field, deep;
    [metav1.Time] fields by their [Equal] method. *)
Definition option_eqb {A : Type} (eqb : A -> A -> bool)
    (x y : option A) : bool :=
  match x, y with
  | None, None => true
  | Some a, Some b => eqb a b
  | _, _ => false
  end.

Fixpoint list_eqb {A : Type} (eqb : A -> A -> bool)
    (x y : list A) : bool :=
  match x, y with
  | [], [] => true
  | a :: x', b :: y' => eqb a b && list_eqb eqb x' y'
  | _, _ => false
  end.

Definition Reference_eqb (a b : Reference) : bool :=
  String.eqb (RefName a) (RefName b).

Definition label_eqb (a b : string * string) : bool :=
  String.eqb (fst a) (fst b) && String.eqb (snd a) (snd b).

Definition Selector_eqb (a b : Selector) : bool :=
  list_eqb label_eqb (MatchLabels a) (MatchLabels b)
  && option_eqb Bool.eqb (MatchControllerRef a) (MatchControllerRef b).

Definition cmp_Equal (a b : AccessTokenParameters) : bool :=
  option_eqb String.eqb (ProjectID a) (ProjectID b)
  && option_eqb Reference_eqb (ProjectIDRef a) (ProjectIDRef b)
  && option_eqb Selector_eqb (ProjectIDSelector a) (ProjectIDSelector b)
  && option_eqb GoTime.Equal (ExpiresAt a) (ExpiresAt b)
  && option_eqb Z.eqb (RotateThreshold a) (RotateThreshold b)
  && option_eqb Z.eqb (AccessLevel a) (AccessLevel b)
  && list_eqb String.eqb (Scopes a) (Scopes b)
  && String.eqb (Name a) (Name b).

End V1alpha1.

(** ** Package [projects]: the client interface and the option builder *)
Module Projects.

(** What a call of the client returns: the record, the HTTP response and
    the error, each possibly [nil]. *)
Definition TokenReply : Type :=
  (option Gitlab.ProjectAccessToken * option Gitlab.Response
   * option error)%type.

(** [type AccessTokenClient interface]; the project is passed as the
    dereferenced [ProjectID]. *)
Record AccessTokenClient : Type := {
  GetProjectAccessToken : string -> Z -> TokenReply;
  CreateProjectAccessToken :
    string -> Gitlab.CreateProjectAccessTokenOptions -> TokenReply;
  RevokeProjectAccessToken :
    string -> Z -> option Gitlab.Response * option error;
  RotateProjectAccessToken :
    string -> Z -> Gitlab.RotateProjectAccessTokenOptions -> TokenReply
}.

(** [func GenerateCreateProjectAccessTokenOptions(name string,
    p *v1alpha1.AccessTokenParameters)] *)
Definition GenerateCreateProjectAccessTokenOptions (name : string)
    (p : V1alpha1.AccessTokenParameters)
    : Gitlab.CreateProjectAccessTokenOptions :=
  {| Gitlab.OptName := Some name;
     Gitlab.OptScopes := Some (V1alpha1.Scopes p);
     Gitlab.OptExpiresAt :=
       match V1alpha1.ExpiresAt p with
       | Some e => Some e
       | None => None
       end;
     Gitlab.OptAccessLevel :=
       match V1alpha1.AccessLevel p with
       | Some a => Some a
       | None => None
       end |}.

End Projects.

(** ** Package [accesstokens]: the controller *)
Module Accesstokens.
Import V1alpha1.

Definition errNotAccessToken : string :=
  "managed resource is not a Gitlab accesstoken custom resource".
Definition errExternalNameNotInt : string :=
  "custom resource external name is not an integer".
Definition errFailedParseID : string := "cannot parse Access Token ID to int".
Definition errGetFailed : string := "cannot get Gitlab accesstoken".
Definition errCreateFailed : string := "cannot create Gitlab accesstoken".
Definition errDeleteFailed : string := "cannot delete Gitlab accesstoken".
Definition errAccessTokentNotFound : string := "cannot find Gitlab accesstoken".
Definition errMissingProjectID : string := "missing Spec.ForProvider.ProjectID".
Definition errRotationFailed : string := "access token rotation failed".

(** [DefaultAccessTokenRotateThreshold = 7 * 24 * time.Hour] *)
Definition DefaultAccessTokenRotateThreshold : GoTime.Duration :=
  7 * 24 * GoTime.Hour.

(** *** The managed resource *)

(** [xpv1.Condition], without its transition time. *)
Inductive ConditionType : Type := TypeReady | TypeSynced.

Record Condition : Type := {
  CondType : ConditionType;
  CondStatus : bool;
  CondReason : string
}.

Definition ConditionType_eqb (a b : ConditionType) : bool :=
  match a, b with
  | TypeReady, TypeReady | TypeSynced, TypeSynced => true
  | _, _ => false
  end.

(** [xpv1.Available()] *)
Definition Available : Condition :=
  {| CondType := TypeReady; CondStatus := true; CondReason := "Available" |}.

(** [type AccessToken struct]: the object's name, its external-name
    annotation (absent or a string), [Spec.ForProvider],
    [Status.AtProvider] and the status conditions. *)
Record AccessToken : Type := {
  ObjectName : string;
  ExternalNameAnnotation : option string;
  ForProvider : AccessTokenParameters;
  AtProvider : AccessTokenObservation;
  Conditions : list Condition
}.

(** [resource.Managed]: an access token or a resource of another kind. *)
Inductive Managed : Type :=
| MgAccessToken (cr : AccessToken)
| MgOther.

(** [meta.GetExternalName]: the empty string when there is no annotation. *)
Definition GetExternalName (cr : AccessToken) : string :=
  match ExternalNameAnnotation cr with
  | Some s => s
  | None => ""
  end.

(** [meta.SetExternalName] *)
Definition SetExternalName (cr : AccessToken) (name : string) : AccessToken :=
  {| ObjectName := ObjectName cr;
     ExternalNameAnnotation := Some name;
     ForProvider := ForProvider cr;
     AtProvider := AtProvider cr;
     Conditions := Conditions cr |}.

Definition setAtProvider (cr : AccessToken) (o : AccessTokenObservation)
    : AccessToken :=
  {| ObjectName := ObjectName cr;
     ExternalNameAnnotation := ExternalNameAnnotation cr;
     ForProvider := ForProvider cr;
     AtProvider := o;
     Conditions := Conditions cr |}.

Definition setForProvider (cr : AccessToken) (p : AccessTokenParameters)
    : AccessToken :=
  {| ObjectName := ObjectName cr;
     ExternalNameAnnotation := ExternalNameAnnotation cr;
     ForProvider := p;
     AtProvider := AtProvider cr;
     Conditions := Conditions cr |}.

Fixpoint setCondition (cs : list Condition) (c : Condition)
    : list Condition :=
  match cs with
  | [] => [c]
  | c' :: rest =>
      if ConditionType_eqb (CondType c') (CondType c) then c :: rest
      else c' :: setCondition rest c
  end.

(** [cr.Status.SetConditions(c)]: the condition of [c]'s type is replaced,
    or [c] is added. *)
Definition SetConditions (cr : AccessToken) (c : Condition) : AccessToken :=
  {| ObjectName := ObjectName cr;
     ExternalNameAnnotation := ExternalNameAnnotation cr;
     ForProvider := ForProvider cr;
     AtProvider := AtProvider cr;
     Conditions := setCondition (Conditions cr) c |}.

(** *** What an operation returns *)

(** [managed.ConnectionDetails]: a map from key to bytes. *)
Definition ConnectionDetails : Type := list (string * string).

Record ExternalObservation : Type := {
  ResourceExists : bool;
  ResourceUpToDate : bool;
  ResourceLateInitialized : bool;
  ObservationDetails : ConnectionDetails
}.

Record ExternalCreation : Type := {
  ExternalNameAssigned : bool;
  CreationDetails : ConnectionDetails
}.

Record ExternalUpdate : Type := {
  UpdateDetails : ConnectionDetails
}.

(** The zero values [managed.ExternalObservation{}] and the like. *)
Definition noObservation : ExternalObservation :=
  {| ResourceExists := false; ResourceUpToDate := false;
     ResourceLateInitialized := false; ObservationDetails := [] |}.
Definition noCreation : ExternalCreation :=
  {| ExternalNameAssigned := false; CreationDetails := [] |}.
Definition noUpdate : ExternalUpdate := {| UpdateDetails := [] |}.

(** A call of the remote service, with its arguments. *)
Inductive RemoteCall : Type :=
| CallGet (pid : string) (id : Z)
| CallCreate (pid : string) (opt : Gitlab.CreateProjectAccessTokenOptions)
| CallRevoke (pid : string) (id : Z)
| CallRotate (pid : string) (id : Z)
    (opt : Gitlab.RotateProjectAccessTokenOptions).

(** How a Go function ends: it returns its value and its error (possibly
    [nil]), or it panics on a nil pointer dereference. *)
Inductive Completion (A : Type) : Type :=
| Returned (v : A) (err : option error)
| Panicked.
Arguments Returned {A} v err.
Arguments Panicked {A}.

(** A run of an operation: how it ended, the managed resource as the run
    left it, and the remote calls it made, in order. *)
Record Run (A : Type) : Type := {
  completion : Completion A;
  managed : Managed;
  calls : list RemoteCall
}.
Arguments completion {A} r.
Arguments managed {A} r.
Arguments calls {A} r.

Definition finish {A : Type} (mg : Managed) (cs : list RemoteCall)
    (v : A) (err : option error) : Run A :=
  {| completion := Returned v err; managed := mg; calls := cs |}.

Definition panic {A : Type} (mg : Managed) (cs : list RemoteCall) : Run A :=
  {| completion := Panicked; managed := mg; calls := cs |}.

(** [type external struct]: the client the connector built ([kube] is
    not used by the operations). *)
Record external : Type := { client : Projects.AccessTokenClient }.

(** [func lateInitializeProjectAccessToken(in *AccessTokenParameters,
    accessToken *gitlab.ProjectAccessToken)]: [in] after the call. *)
Definition lateInitializeProjectAccessToken (in_ : AccessTokenParameters)
    (accessToken : option Gitlab.ProjectAccessToken)
    : AccessTokenParameters :=
  match accessToken with
  | None => in_
  | Some tok =>
      {| ProjectID := ProjectID in_;
         ProjectIDRef := ProjectIDRef in_;
         ProjectIDSelector := ProjectIDSelector in_;
         RotateThreshold := RotateThreshold in_;
         Scopes := Scopes in_;
         Name := Name in_;
         AccessLevel :=
           match AccessLevel in_ with
           | None => Some (Gitlab.AccessLevel tok)
           | Some a => Some a
           end;
         ExpiresAt :=
           match ExpiresAt in_, Gitlab.ExpiresAt tok with
           | None, Some e => Some e
           | x, _ => x
           end |}
  end.

(** The rotation policy of [Update] (its lines on [ttl] and
    [expiresAt]): the lifetime requested for the next token, and the
    expiration sent to the remote service. *)
Definition rotationTTL (observed : AccessTokenObservation)
    (desired : AccessTokenParameters) : GoTime.Duration :=
  let ttl := TotalDuration observed in
  match RotateThreshold desired with
  | Some rt => GoTime.max ttl (GoTime.Duration_mul rt 2)
  | None => ttl
  end.

Definition rotationExpiresAt (observed : AccessTokenObservation)
    (desired : AccessTokenParameters) (now : GoTime.Time) : GoTime.Time :=
  GoTime.Truncate (GoTime.Add now (rotationTTL observed desired))
    (24 * GoTime.Hour).

Section Operations.

(** [clients.IsResponseNotFound] is declared in package [clients],
    outside the files at hand: the operations take it as a parameter. *)
Variable IsResponseNotFound : option Gitlab.Response -> bool.

(** [func (e *external) Observe(ctx, mg)]; [now] is what [time.Now()]
    returns inside [ExpiresWithin]. *)
Definition Observe (e : external) (now : GoTime.Time) (mg : Managed)
    : Run ExternalObservation :=
  match mg with
  | MgOther =>
      finish mg [] noObservation (Some (errors_New errNotAccessToken))
  | MgAccessToken cr =>
      let externalName := GetExternalName cr in
      if String.eqb externalName "" then finish mg [] noObservation None
      else
        match Strconv.Atoi externalName with
        | Fail err =>
            finish mg [] noObservation
              (errors_Wrap (Some err) errFailedParseID)
        | Ok accessTokenID =>
            match ProjectID (ForProvider cr) with
            | None =>
                finish mg [] noObservation
                  (Some (errors_New errMissingProjectID))
            | Some pid =>
                let '(at_, res, err) :=
                  Projects.GetProjectAccessToken (client e) pid
                    accessTokenID in
                let made := [CallGet pid accessTokenID] in
                match err with
                | Some _ =>
                    if IsResponseNotFound res
                    then finish mg made noObservation None
                    else finish mg made noObservation
                           (errors_Wrap err errAccessTokentNotFound)
                | None =>
                    match at_ with
                    | None => panic mg made
                    | Some tok =>
                        let cr1 :=
                          setAtProvider cr
                            (CopyFromToken (AtProvider cr) tok) in
                        let current := DeepCopy (ForProvider cr1) in
                        let cr2 :=
                          setForProvider cr1
                            (lateInitializeProjectAccessToken
                               (ForProvider cr1) at_) in
                        let cr3 := SetConditions cr2 Available in
                        let threshold :=
                          match RotateThreshold current with
                          | Some rt => GoTime.Duration_Abs rt
                          | None => DefaultAccessTokenRotateThreshold
                          end in
                        finish (MgAccessToken cr3) made
                          {| ResourceExists := true;
                             ResourceUpToDate :=
                               negb (IsRevoked (AtProvider cr3))
                               && negb (ExpiresWithin (AtProvider cr3)
                                          threshold now);
                             ResourceLateInitialized :=
                               negb (cmp_Equal current (ForProvider cr3));
                             ObservationDetails := [] |}
                          None
                    end
                end
            end
        end
  end.

(** [func (e *external) Create(ctx, mg)] *)
Definition Create (e : external) (mg : Managed) : Run ExternalCreation :=
  match mg with
  | MgOther => finish mg [] noCreation (Some (errors_New errNotAccessToken))
  | MgAccessToken cr =>
      match ProjectID (ForProvider cr) with
      | None =>
          finish mg [] noCreation (Some (errors_New errMissingProjectID))
      | Some pid =>
          let opt :=
            Projects.GenerateCreateProjectAccessTokenOptions
              (ObjectName cr) (ForProvider cr) in
          let '(at_, _, err) :=
            Projects.CreateProjectAccessToken (client e) pid opt in
          let made := [CallCreate pid opt] in
          match err with
          | Some _ =>
              finish mg made noCreation (errors_Wrap err errCreateFailed)
          | None =>
              match at_ with
              | None => panic mg made
              | Some tok =>
                  let cr1 :=
                    setAtProvider cr (CopyFromToken (AtProvider cr) tok) in
                  let cr2 :=
                    SetExternalName cr1 (Strconv.Itoa (Gitlab.ID tok)) in
                  finish (MgAccessToken cr2) made
                    {| ExternalNameAssigned := true;
                       CreationDetails := [("token", Gitlab.Token tok)] |}
                    None
              end
          end
      end
  end.

(** [func (e *external) Update(ctx, mg)]; [now] is what [time.Now()]
    returns.  [*cr.Spec.ForProvider.ProjectID] is evaluated as an
    argument of the rotate call, with no test before it. *)
Definition Update (e : external) (now : GoTime.Time) (mg : Managed)
    : Run ExternalUpdate :=
  match mg with
  | MgOther => finish mg [] noUpdate (Some (errors_New errNotAccessToken))
  | MgAccessToken cr =>
      let externalName := GetExternalName cr in
      if String.eqb externalName ""
      then finish mg [] noUpdate (Some (errors_New errNotAccessToken))
      else
        match Strconv.Atoi externalName with
        | Fail err =>
            finish mg [] noUpdate (errors_Wrap (Some err) errFailedParseID)
        | Ok accessTokenID =>
            let expiresAt :=
              rotationExpiresAt (AtProvider cr) (ForProvider cr) now in
            match ProjectID (ForProvider cr) with
            | None => panic mg []
            | Some pid =>
                let opt := {| Gitlab.RotExpiresAt := Some expiresAt |} in
                let '(at_, _, err) :=
                  Projects.RotateProjectAccessToken (client e) pid
                    accessTokenID opt in
                let made := [CallRotate pid accessTokenID opt] in
                match err with
                | Some _ =>
                    finish mg made noUpdate
                      (errors_Wrap err errRotationFailed)
                | None =>
                    match at_ with
                    | None => panic mg made
                    | Some tok =>
                        let cr1 :=
                          setAtProvider cr
                            (CopyFromToken (AtProvider cr) tok) in
                        let cr2 :=
                          SetExternalName cr1
                            (Strconv.Itoa (Gitlab.ID tok)) in
                        finish (MgAccessToken cr2) made
                          {| UpdateDetails :=
                               [("token", Gitlab.Token tok)] |}
                          None
                    end
                end
            end
        end
  end.

(** [func (e *external) Delete(ctx, mg) error] *)
Definition Delete (e : external) (mg : Managed) : Run unit :=
  match mg with
  | MgOther => finish mg [] tt (Some (errors_New errNotAccessToken))
  | MgAccessToken cr =>
      match Strconv.Atoi (GetExternalName cr) with
      | Fail _ => finish mg [] tt (Some (errors_New errExternalNameNotInt))
      | Ok accessTokenID =>
          match ProjectID (ForProvider cr) with
          | None => finish mg [] tt (Some (errors_New errMissingProjectID))
          | Some pid =>
              let '(_, err) :=
                Projects.RevokeProjectAccessToken (client e) pid
                  accessTokenID in
              finish mg [CallRevoke pid accessTokenID] tt
                (errors_Wrap err errDeleteFailed)
          end
      end
  end.

End Operations.

(** *** The error taxonomy, read on the controller's error values: a
    validation error reports a missing required field or an identity
    binding that is not an integer. *)
Definition ValidationError (e : error) : bool :=
  match e with
  | errors_New msg =>
      String.eqb msg errMissingProjectID
      || String.eqb msg errExternalNameNotInt
  | Wrapped (NumError _ _ _) msg => String.eqb msg errFailedParseID
  | _ => false
  end.

(** The secret material a run emitted as connection details. *)
Definition emitted {A : Type} (details : A -> ConnectionDetails)
    (r : Run A) : ConnectionDetails :=
  match completion r with
  | Returned v _ => details v
  | Panicked => []
  end.

End Accesstokens.

(** * Properties *)

Import GoTime V1alpha1 Accesstokens.

(** ** Arithmetic of durations and instants *)
Section TimeFacts.

Lemma int64b_spec (z : Z) : int64b z = true <-> int64 z.
Proof.
  unfold int64b, int64.
  rewrite andb_true_iff, !Z.leb_le. tauto.
Qed.

Lemma wrap64_id (z : Z) : int64 z -> wrap64 z = z.
Proof.
  unfold int64, MinInt64, MaxInt64, wrap64. intros H.
  rewrite Z.mod_small by lia. lia.
Qed.

Lemma wrap64_int64 (z : Z) : int64 (wrap64 z).
Proof.
  unfold int64, MinInt64, MaxInt64, wrap64.
  pose proof (Z.mod_pos_bound (z + 2 ^ 63) (2 ^ 64) ltac:(lia)). lia.
Qed.

Lemma Duration_mul_2 (d : Duration) :
  - 2 ^ 62 <= d < 2 ^ 62 -> Duration_mul d 2 = 2 * d.
Proof.
  intros H. unfold Duration_mul.
  rewrite wrap64_id; [lia|]. unfold int64, MinInt64, MaxInt64. lia.
Qed.

Lemma Duration_Abs_Zabs (d : Duration) :
  d <> minDuration -> Duration_Abs d = Z.abs d.
Proof.
  intros H. unfold Duration_Abs.
  destruct (Z.leb_spec 0 d); [lia|].
  destruct (Z.eqb_spec d minDuration); [contradiction|lia].
Qed.

Lemma Duration_Abs_nonneg (d : Duration) : 0 <= Duration_Abs d.
Proof.
  unfold Duration_Abs.
  destruct (Z.leb_spec 0 d); [lia|].
  destruct (Z.eqb_spec d minDuration);
    [unfold maxDuration, MaxInt64; lia | lia].
Qed.

Lemma Duration_Abs_int64 (d : Duration) : int64 d -> int64 (Duration_Abs d).
Proof.
  unfold Duration_Abs, int64, minDuration, maxDuration, MinInt64, MaxInt64.
  intros H.
  destruct (Z.leb_spec 0 d); [lia|].
  destruct (Z.eqb_spec d (- 2 ^ 63)); lia.
Qed.

Lemma Duration_Abs_idem (d : Duration) :
  Duration_Abs (Duration_Abs d) = Duration_Abs d.
Proof.
  pose proof (Duration_Abs_nonneg d) as H.
  unfold Duration_Abs at 1.
  destruct (Z.leb_spec 0 (Duration_Abs d)); [reflexivity|lia].
Qed.

Lemma Duration_Abs_opp (d : Duration) :
  int64 d -> d <> minDuration -> Duration_Abs (- d) = Duration_Abs d.
Proof.
  unfold int64, minDuration, MinInt64, MaxInt64. intros H Hne.
  rewrite !Duration_Abs_Zabs; unfold minDuration, MinInt64; lia.
Qed.

Lemma Truncate_day_multiple (t : Time) :
  Truncate t (24 * Hour) mod (24 * Hour) = 0.
Proof.
  unfold Truncate. change (24 * Hour <=? 0) with false. cbv iota.
  rewrite Zminus_mod, Z.mod_mod by (cbv; discriminate).
  rewrite Z.sub_diag. reflexivity.
Qed.

Lemma Truncate_day_bounds (t : Time) :
  Truncate t (24 * Hour) <= t < Truncate t (24 * Hour) + 24 * Hour.
Proof.
  unfold Truncate. change (24 * Hour <=? 0) with false. cbv iota.
  pose proof (Z.mod_pos_bound t (24 * Hour) ltac:(cbv; reflexivity)). lia.
Qed.

End TimeFacts.

(** ** The observation model *)

(** An observation that reports only an expiration. *)
Definition expiringAt (e : Time) : AccessTokenObservation :=
  {| TokenID := None; ObsExpiresAt := Some e; ObsCreatedAt := None;
     ObsName := None; ObsRevoked := None; ObsActive := None |}.

(** Midnight UTC of the day that starts [days] days after the zero time;
    2024-01-01 is day 738885. *)
Definition midnightUTC (days : Z) : Time := days * (24 * Hour).

(** The cases of the package's tests. *)
Example IsRevoked_nil : IsRevoked emptyObservation = false.
Proof. reflexivity. Qed.

Example TotalDuration_nil :
  TotalDuration emptyObservation = DefaultAccessTokenMaxDuration.
Proof. reflexivity. Qed.

Example TotalDuration_created_nil :
  TotalDuration (expiringAt (midnightUTC 738885))
  = DefaultAccessTokenMaxDuration.
Proof. reflexivity. Qed.

Example TotalDuration_48h :
  TotalDuration
    {| TokenID := None; ObsExpiresAt := Some (midnightUTC 738887);
       ObsCreatedAt := Some (midnightUTC 738885);
       ObsName := None; ObsRevoked := None; ObsActive := None |}
  = 48 * Hour.
Proof. reflexivity. Qed.

Lemma IsRevoked_spec (o : AccessTokenObservation) :
  IsRevoked o = match ObsRevoked o with None => false | Some r => r end.
Proof. reflexivity. Qed.

Lemma ExpiresWithin_unset (o : AccessTokenObservation) (d : Duration)
    (now : Time) :
  ObsExpiresAt o = None -> ExpiresWithin o d now = false.
Proof. intros H. unfold ExpiresWithin. now rewrite H. Qed.

Lemma ExpiresWithin_set (o : AccessTokenObservation) (d : Duration)
    (now e : Time) :
  ObsExpiresAt o = Some e ->
  (ExpiresWithin o d now = true <-> e - Duration_Abs d < now).
Proof.
  intros H. unfold ExpiresWithin, Before, Add. rewrite H.
  rewrite Z.ltb_lt. lia.
Qed.

(** The test of the spec's words, over the integers: the expiration less
    the absolute value of [d] is strictly before [now]. *)
Definition spec_expiresWithin (e : Time) (d : Z) (now : Time) : bool :=
  e - Z.abs d <? now.

(** At the minimum duration [Duration.Abs] answers the maximum, one
    nanosecond short of the absolute value: a token that expires 2^63 - 1
    nanoseconds after [now] is not within the threshold for the code and
    is within it for the absolute value. *)
Lemma ExpiresWithin_minDuration_differs :
  int64 minDuration
  /\ ExpiresWithin (expiringAt (midnightUTC 738886 + (2 ^ 63 - 1)))
       minDuration (midnightUTC 738886)
     = false
  /\ spec_expiresWithin (midnightUTC 738886 + (2 ^ 63 - 1)) minDuration
       (midnightUTC 738886)
     = true
  /\ ~ (ExpiresWithin (expiringAt (midnightUTC 738886 + (2 ^ 63 - 1)))
          minDuration (midnightUTC 738886) = true
        <-> midnightUTC 738886 + (2 ^ 63 - 1) - Z.abs minDuration
            < midnightUTC 738886).
Proof.
  split; [apply int64b_spec; reflexivity|].
  split; [reflexivity|]. split; [reflexivity|].
  intros [_ H].
  assert (Hlt : midnightUTC 738886 + (2 ^ 63 - 1) - Z.abs minDuration
                < midnightUTC 738886) by (vm_compute; reflexivity).
  specialize (H Hlt). vm_compute in H. discriminate H.
Qed.

(** C9, amended.  [ExpiresWithin d] is false when [ExpiresAt] is unset,
    for every [d].  Otherwise, for every duration [d] but the minimum
    (-2^63 ns, whose absolute value is not a [Duration]), it is true
    exactly when [ExpiresAt] minus the absolute value of [d] is strictly
    before the current time, and a duration and its opposite give the
    same answer; at the minimum [Duration.Abs] answers the maximum and the
    comparison uses that.  A token that expires in exactly 7 days does
    not expire within 48 hours and does expire within 8 days. *)
Theorem ExpiresWithin_correct :
  forall (o : AccessTokenObservation) (d : Duration) (now : Time),
    d <> minDuration ->
    match ObsExpiresAt o with
    | None => ExpiresWithin o d now = false
    | Some e =>
        (ExpiresWithin o d now = true <-> e - Z.abs d < now)
        /\ ExpiresWithin o d now = spec_expiresWithin e d now
    end
    /\ (forall d' : Duration,
           ObsExpiresAt o = None -> ExpiresWithin o d' now = false)
    /\ (int64 d -> ExpiresWithin o (- d) now = ExpiresWithin o d now)
    /\ (forall e : Time,
           ObsExpiresAt o = Some e ->
           (ExpiresWithin o minDuration now = true <-> e - maxDuration < now))
    /\ ExpiresWithin (expiringAt (Add now (7 * 24 * Hour))) (48 * Hour) now
       = false
    /\ ExpiresWithin (expiringAt (Add now (7 * 24 * Hour))) (8 * 24 * Hour) now
       = true.
Proof.
  intros o d now Hd. repeat match goal with |- _ /\ _ => split end.
  - destruct (ObsExpiresAt o) as [e|] eqn:He.
    + split.
      * rewrite <- (Duration_Abs_Zabs d Hd). now apply ExpiresWithin_set.
      * unfold ExpiresWithin, spec_expiresWithin, Before, Add. rewrite He.
        rewrite (Duration_Abs_Zabs d Hd). reflexivity.
    + now apply ExpiresWithin_unset.
  - intros d' He. now apply ExpiresWithin_unset.
  - intros Hr. unfold ExpiresWithin. now rewrite Duration_Abs_opp.
  - intros e He.
    change maxDuration with (Duration_Abs minDuration).
    now apply ExpiresWithin_set.
  - unfold ExpiresWithin, expiringAt, Before, Add; cbn [ObsExpiresAt].
    apply Z.ltb_ge. change (Duration_Abs (48 * Hour)) with (48 * Hour).
    unfold Hour, Minute, Second, Nanosecond. lia.
  - unfold ExpiresWithin, expiringAt, Before, Add; cbn [ObsExpiresAt].
    apply Z.ltb_lt. change (Duration_Abs (8 * 24 * Hour)) with (8 * 24 * Hour).
    unfold Hour, Minute, Second, Nanosecond. lia.
Qed.

Lemma ExpiresWithin_correct_witness :
  ExpiresWithin (expiringAt (midnightUTC 738887)) (- (72 * Hour))
    (midnightUTC 738885)
  = true
  <-> midnightUTC 738887 - Z.abs (- (72 * Hour)) < midnightUTC 738885.
Proof.
  refine (proj1 (proj1 (ExpiresWithin_correct
                          (expiringAt (midnightUTC 738887)) (- (72 * Hour))
                          (midnightUTC 738885) _))).
  vm_compute. discriminate.
Defined.

(** ** Sample inputs *)

(** A response is "not found" when its status is 404: the instance of
    [IsResponseNotFound] the samples run with. *)
Definition statusNotFound (res : option Gitlab.Response) : bool :=
  match res with
  | Some r => Gitlab.StatusCode r =? 404
  | None => false
  end.

(** A client whose token calls all answer [reply]. *)
Definition stubClient (reply : Projects.TokenReply) : external :=
  {| client :=
       {| Projects.GetProjectAccessToken := fun _ _ => reply;
          Projects.CreateProjectAccessToken := fun _ _ => reply;
          Projects.RevokeProjectAccessToken :=
            fun _ _ => (snd (fst reply), snd reply);
          Projects.RotateProjectAccessToken := fun _ _ _ => reply |} |}.

Definition sampleParameters (pid : option string) (rt : option Duration)
    : AccessTokenParameters :=
  {| ProjectID := pid; ProjectIDRef := None; ProjectIDSelector := None;
     ExpiresAt := None; RotateThreshold := rt; AccessLevel := None;
     Scopes := ["read_repository"]; Name := "ci" |}.

Definition sampleResource (name : option string) (pid : option string)
    (rt : option Duration) (o : AccessTokenObservation) : AccessToken :=
  {| ObjectName := "ci-token"; ExternalNameAnnotation := name;
     ForProvider := sampleParameters pid rt; AtProvider := o;
     Conditions := [] |}.

(** Token 42, created on 2024-01-01 and expiring on 2024-01-03. *)
Definition sampleToken : Gitlab.ProjectAccessToken :=
  {| Gitlab.ID := 42; Gitlab.Name := "ci";
     Gitlab.CreatedAt := Some (midnightUTC 738885);
     Gitlab.ExpiresAt := Some (midnightUTC 738887);
     Gitlab.Active := true; Gitlab.Revoked := false;
     Gitlab.Token := "glpat-sample"; Gitlab.AccessLevel := 40 |}.

(** The same token as a service without expirations reports it. *)
Definition sampleTokenNoDates : Gitlab.ProjectAccessToken :=
  {| Gitlab.ID := 42; Gitlab.Name := "ci";
     Gitlab.CreatedAt := None; Gitlab.ExpiresAt := None;
     Gitlab.Active := true; Gitlab.Revoked := false;
     Gitlab.Token := "glpat-sample"; Gitlab.AccessLevel := 40 |}.

Definition transportError : error := errors_New "connection refused".

Example Atoi_42 : Strconv.Atoi "42" = Ok 42.
Proof. reflexivity. Qed.

Example Atoi_negative : Strconv.Atoi "-7" = Ok (-7).
Proof. reflexivity. Qed.

Example Atoi_not_int : Strconv.Atoi "abc" = Fail (NumError "Atoi" "abc" false).
Proof. reflexivity. Qed.

Example Atoi_sign_only : Strconv.Atoi "+" = Fail (NumError "Atoi" "+" false).
Proof. reflexivity. Qed.

Example Atoi_out_of_range :
  Strconv.Atoi "9223372036854775808"
  = Fail (NumError "Atoi" "9223372036854775808" true).
Proof. reflexivity. Qed.

Example Atoi_min_int :
  Strconv.Atoi "-9223372036854775808" = Ok (- 9223372036854775808).
Proof. reflexivity. Qed.

Example Atoi_below_min_int :
  Strconv.Atoi "-9223372036854775809"
  = Fail (NumError "Atoi" "-9223372036854775809" true).
Proof. reflexivity. Qed.

(** The range error is reported at the digit that overflows, before a
    later byte that is no digit is read. *)
Example Atoi_overflow_before_letter :
  Strconv.Atoi "99999999999999999999x"
  = Fail (NumError "Atoi" "99999999999999999999x" true).
Proof. reflexivity. Qed.

Example Atoi_letter_before_overflow :
  Strconv.Atoi "12345678901234567890x"
  = Fail (NumError "Atoi" "12345678901234567890x" false).
Proof. reflexivity. Qed.

Example Atoi_empty : Strconv.Atoi "" = Fail (NumError "Atoi" "" false).
Proof. reflexivity. Qed.

Example Itoa_42 : Strconv.Itoa 42 = "42".
Proof. reflexivity. Qed.

(** ** Observe: the up-to-date flag *)

(** The threshold of the spec's words, over the integers: the absolute
    value of the caller's [RotateThreshold] when it is set, the 7-day
    default otherwise. *)
Definition spec_effectiveThreshold (desired : AccessTokenParameters) : Z :=
  match RotateThreshold desired with
  | Some rt => Z.abs rt
  | None => 7 * 24 * Hour
  end.

(** The flag of the spec's words for an observation. *)
Definition spec_upToDate (observed : AccessTokenObservation)
    (desired : AccessTokenParameters) (now : Time) : bool :=
  negb (IsRevoked observed)
  && negb (ExpiresWithin observed (spec_effectiveThreshold desired) now).

(** Token 42, active and not revoked, expiring 2^63 - 1 nanoseconds after
    the start of 2024-01-02. *)
Definition farToken : Gitlab.ProjectAccessToken :=
  {| Gitlab.ID := 42; Gitlab.Name := "ci";
     Gitlab.CreatedAt := Some (midnightUTC 738885);
     Gitlab.ExpiresAt := Some (midnightUTC 738886 + (2 ^ 63 - 1));
     Gitlab.Active := true; Gitlab.Revoked := false;
     Gitlab.Token := "glpat-sample"; Gitlab.AccessLevel := 40 |}.

(** A threshold of the minimum duration: Observe compares with
    [Duration.Abs] of it, the maximum duration, and reports the token up
    to date; with the absolute value, 2^63 ns, the token expires within
    the threshold and the flag of the spec's words is false. *)
Lemma Observe_minDuration_threshold :
  int64 minDuration
  /\ completion
       (Observe statusNotFound (stubClient (Some farToken, None, None))
          (midnightUTC 738886)
          (MgAccessToken
             (sampleResource (Some "42") (Some "7") (Some minDuration)
                emptyObservation)))
     = Returned {| ResourceExists := true; ResourceUpToDate := true;
                   ResourceLateInitialized := true;
                   ObservationDetails := [] |} None
  /\ spec_upToDate (CopyFromToken emptyObservation farToken)
       (sampleParameters (Some "7") (Some minDuration)) (midnightUTC 738886)
     = false.
Proof.
  split; [apply int64b_spec; reflexivity|].
  split; vm_compute; reflexivity.
Qed.

Lemma ExpiresWithin_Zabs (o : AccessTokenObservation) (d : Duration)
    (now : Time) :
  d <> minDuration ->
  ExpiresWithin o (Z.abs d) now = ExpiresWithin o (Duration_Abs d) now.
Proof. intros H. now rewrite (Duration_Abs_Zabs d H). Qed.

(** C4, amended.  After a successful fetch on a resource whose
    [RotateThreshold] is unset or is not the minimum duration (-2^63 ns,
    whose absolute value is not a [Duration]), Observe reports the
    resource as existing and up to date exactly when the refreshed
    observation is not revoked and does not expire within the effective
    threshold: the absolute value of the caller's [RotateThreshold] when
    set, otherwise 7 days.  [IsRevoked] is false on an unset [Revoked]
    and its value otherwise. *)
Theorem Observe_upToDate :
  forall (nf : option Gitlab.Response -> bool) (e : external) (now : Time)
         (cr : AccessToken) (pid : string) (id : Z)
         (tok : Gitlab.ProjectAccessToken) (res : option Gitlab.Response),
    RotateThreshold (ForProvider cr) <> Some minDuration ->
    Strconv.Atoi (GetExternalName cr) = Ok id ->
    ProjectID (ForProvider cr) = Some pid ->
    Projects.GetProjectAccessToken (client e) pid id = (Some tok, res, None) ->
    (exists (o : ExternalObservation) (cr' : AccessToken),
        Observe nf e now (MgAccessToken cr)
        = {| completion := Returned o None;
             managed := MgAccessToken cr';
             calls := [CallGet pid id] |}
        /\ AtProvider cr' = CopyFromToken (AtProvider cr) tok
        /\ ResourceExists o = true
        /\ ResourceUpToDate o
           = negb (IsRevoked (AtProvider cr'))
             && negb (ExpiresWithin (AtProvider cr')
                        (spec_effectiveThreshold (ForProvider cr)) now))
    /\ spec_effectiveThreshold (ForProvider cr)
       = match RotateThreshold (ForProvider cr) with
         | Some rt => Z.abs rt
         | None => 7 * 24 * Hour
         end
    /\ (forall o : AccessTokenObservation,
           IsRevoked o
           = match ObsRevoked o with None => false | Some r => r end).
Proof.
  intros nf e now cr pid id tok res Hmin Hid Hpid Hget.
  split; [|split; reflexivity].
  unfold Observe.
  destruct (String.eqb_spec (GetExternalName cr) "") as [E|_];
    [rewrite E in Hid; discriminate Hid|].
  rewrite Hid, Hpid, Hget.
  eexists; eexists. split; [reflexivity|].
  cbn [AtProvider ForProvider SetConditions setForProvider setAtProvider
       ResourceExists ResourceUpToDate].
  split; [reflexivity|]. split; [reflexivity|].
  unfold spec_effectiveThreshold, DeepCopy.
  destruct (RotateThreshold (ForProvider cr)) as [rt|]; [|reflexivity].
  rewrite ExpiresWithin_Zabs by congruence. reflexivity.
Qed.

Lemma Observe_upToDate_witness :
  exists (o : ExternalObservation) (cr' : AccessToken),
    Observe statusNotFound (stubClient (Some sampleToken, None, None))
      (midnightUTC 738880)
      (MgAccessToken
         (sampleResource (Some "42") (Some "7") (Some (- (48 * Hour)))
            emptyObservation))
    = {| completion := Returned o None;
         managed := MgAccessToken cr';
         calls := [CallGet "7" 42] |}
    /\ AtProvider cr' = CopyFromToken emptyObservation sampleToken
    /\ ResourceExists o = true
    /\ ResourceUpToDate o
       = negb (IsRevoked (AtProvider cr'))
         && negb (ExpiresWithin (AtProvider cr')
                    (spec_effectiveThreshold
                       (sampleParameters (Some "7") (Some (- (48 * Hour)))))
                    (midnightUTC 738880)).
Proof.
  refine (proj1 (Observe_upToDate statusNotFound
                   (stubClient (Some sampleToken, None, None))
                   (midnightUTC 738880)
                   (sampleResource (Some "42") (Some "7")
                      (Some (- (48 * Hour))) emptyObservation)
                   "7" 42 sampleToken None _ eq_refl eq_refl eq_refl)).
  discriminate.
Defined.

(** ** The rotation policy *)

(** The policy in the spec's words, over the integers: the total duration,
    raised to twice the threshold when one is set. *)
Definition spec_rotationTTL (observed : AccessTokenObservation)
    (desired : AccessTokenParameters) : Z :=
  match RotateThreshold desired with
  | Some rt => Z.max (TotalDuration observed) (2 * rt)
  | None => TotalDuration observed
  end.

Definition spec_rotationExpiresAt (observed : AccessTokenObservation)
    (desired : AccessTokenParameters) (now : Time) : Time :=
  let t := now + spec_rotationTTL observed desired in
  t - t mod (24 * Hour).

Lemma TotalDuration_int64 (o : AccessTokenObservation) :
  int64 (TotalDuration o).
Proof.
  assert (Hdef : int64 DefaultAccessTokenMaxDuration)
    by (apply int64b_spec; reflexivity).
  unfold TotalDuration.
  destruct (ObsExpiresAt o) as [e|]; [|exact Hdef].
  destruct (ObsCreatedAt o) as [c|]; [|exact Hdef].
  unfold Sub. destruct (int64b (e - c)) eqn:E.
  - now apply int64b_spec.
  - destruct (e <? c); apply int64b_spec; reflexivity.
Qed.

Lemma rotationTTL_in_range (observed : AccessTokenObservation)
    (desired : AccessTokenParameters) :
  match RotateThreshold desired with
  | Some rt => - 2 ^ 62 <= rt < 2 ^ 62
  | None => True
  end ->
  rotationTTL observed desired = spec_rotationTTL observed desired.
Proof.
  unfold rotationTTL, spec_rotationTTL, GoTime.max.
  destruct (RotateThreshold desired) as [rt|]; [|reflexivity].
  intros H. now rewrite Duration_mul_2.
Qed.

(** A threshold of 2^62 nanoseconds (some 146 years): doubling it leaves
    the range of [Duration], the product wraps to the minimum and the
    total duration of 365 days is kept. *)
Lemma rotation_doubling_overflows :
  int64 (2 ^ 62)
  /\ Duration_mul (2 ^ 62) 2 = minDuration
  /\ rotationTTL emptyObservation
       (sampleParameters (Some "7") (Some (2 ^ 62)))
     = DefaultAccessTokenMaxDuration
  /\ spec_rotationTTL emptyObservation
       (sampleParameters (Some "7") (Some (2 ^ 62)))
     = 2 ^ 63
  /\ rotationExpiresAt emptyObservation
       (sampleParameters (Some "7") (Some (2 ^ 62))) (midnightUTC 738886)
     <> spec_rotationExpiresAt emptyObservation
          (sampleParameters (Some "7") (Some (2 ^ 62))) (midnightUTC 738886).
Proof.
  split; [apply int64b_spec; reflexivity|].
  split; [reflexivity|]. split; [reflexivity|]. split; [reflexivity|].
  vm_compute. discriminate.
Qed.

(** C3, amended.  When the threshold is unset, or lies in the range
    [-2^62, 2^62) nanoseconds in which its double is a [Duration], the
    lifetime is the total duration raised to twice the threshold, and the
    expiration that Update requests from the remote service is [now] plus
    that lifetime, rounded down to a midnight UTC: a whole number of days
    since the zero time, at most one day before [now + ttl].  With a
    total duration of 48h and a threshold of 30h the lifetime is 60h. *)
Theorem rotationExpiresAt_correct :
  forall (observed : AccessTokenObservation) (desired : AccessTokenParameters)
         (now : Time),
    match RotateThreshold desired with
    | Some rt => - 2 ^ 62 <= rt < 2 ^ 62
    | None => True
    end ->
    rotationTTL observed desired
    = match RotateThreshold desired with
      | Some rt => Z.max (TotalDuration observed) (2 * rt)
      | None => TotalDuration observed
      end
    /\ rotationExpiresAt observed desired now
       = spec_rotationExpiresAt observed desired now
    /\ rotationExpiresAt observed desired now mod (24 * Hour) = 0
    /\ rotationExpiresAt observed desired now
       <= now + rotationTTL observed desired
       < rotationExpiresAt observed desired now + 24 * Hour
    /\ (TotalDuration observed = 48 * Hour ->
        RotateThreshold desired = Some (30 * Hour) ->
        rotationTTL observed desired = 60 * Hour
        /\ rotationExpiresAt observed desired now
           = Truncate (now + 60 * Hour) (24 * Hour))
    /\ (forall (e : external) (cr : AccessToken) (pid : string) (id : Z),
           AtProvider cr = observed -> ForProvider cr = desired ->
           Strconv.Atoi (GetExternalName cr) = Ok id ->
           ProjectID desired = Some pid ->
           calls (Update e now (MgAccessToken cr))
           = [CallRotate pid id
                {| Gitlab.RotExpiresAt :=
                     Some (spec_rotationExpiresAt observed desired now) |}]).
Proof.
  intros observed desired now Hrt.
  pose proof (rotationTTL_in_range observed desired Hrt) as Httl.
  assert (Hexp : rotationExpiresAt observed desired now
                 = spec_rotationExpiresAt observed desired now).
  { unfold rotationExpiresAt, spec_rotationExpiresAt, Truncate, Add.
    rewrite Httl. change (24 * Hour <=? 0) with false. reflexivity. }
  split; [exact Httl|].
  split; [exact Hexp|].
  split; [apply Truncate_day_multiple|].
  split; [apply Truncate_day_bounds|].
  split.
  - intros Htd H30. unfold rotationExpiresAt.
    assert (H60 : rotationTTL observed desired = 60 * Hour).
    { rewrite Httl. unfold spec_rotationTTL. rewrite H30, Htd. reflexivity. }
    rewrite H60. split; reflexivity.
  - intros e cr pid id Ho Hd Hid Hpid. subst observed desired.
    rewrite <- Hexp. unfold Update.
    destruct (String.eqb_spec (GetExternalName cr) "") as [E|_].
    { rewrite E in Hid. discriminate. }
    rewrite Hid, Hpid.
    destruct (Projects.RotateProjectAccessToken _ _ _ _) as [[[tok|] r] [err|]];
      reflexivity.
Qed.

Lemma rotationExpiresAt_correct_witness :
  rotationTTL (CopyFromToken emptyObservation sampleToken)
    (sampleParameters (Some "7") (Some (30 * Hour)))
  = 60 * Hour
  /\ rotationExpiresAt (CopyFromToken emptyObservation sampleToken)
       (sampleParameters (Some "7") (Some (30 * Hour))) (midnightUTC 738886)
     = Truncate (midnightUTC 738886 + 60 * Hour) (24 * Hour).
Proof.
  assert (Hrange : - 2 ^ 62 <= 30 * Hour < 2 ^ 62)
    by (unfold Hour, Minute, Second, Nanosecond; lia).
  exact (proj1 (proj2 (proj2 (proj2 (proj2
           (rotationExpiresAt_correct
              (CopyFromToken emptyObservation sampleToken)
              (sampleParameters (Some "7") (Some (30 * Hour)))
              (midnightUTC 738886) Hrange)))))
           eq_refl eq_refl).
Defined.

(** ** Late initialization *)

Section CmpEqual.

Lemma option_eqb_refl {A : Type} (eqb : A -> A -> bool) :
  (forall a, eqb a a = true) -> forall x, option_eqb eqb x x = true.
Proof. intros H [a|]; cbn; auto. Qed.

Lemma list_eqb_refl {A : Type} (eqb : A -> A -> bool) :
  (forall a, eqb a a = true) -> forall l, list_eqb eqb l l = true.
Proof.
  intros H l. induction l as [|a l IH]; cbn; [reflexivity|].
  now rewrite H, IH.
Qed.

Lemma label_eqb_refl (l : string * string) : label_eqb l l = true.
Proof. unfold label_eqb. now rewrite !String.eqb_refl. Qed.

Lemma Selector_eqb_refl (s : Selector) : Selector_eqb s s = true.
Proof.
  unfold Selector_eqb.
  rewrite (list_eqb_refl _ label_eqb_refl).
  rewrite (option_eqb_refl _ Bool.eqb_reflx). reflexivity.
Qed.

Lemma cmp_Equal_refl (p : AccessTokenParameters) : cmp_Equal p p = true.
Proof.
  unfold cmp_Equal, Reference_eqb, Equal.
  rewrite !(option_eqb_refl _ String.eqb_refl).
  rewrite !(option_eqb_refl _ Z.eqb_refl).
  rewrite (option_eqb_refl _ Selector_eqb_refl).
  rewrite (option_eqb_refl (fun a b => String.eqb (RefName a) (RefName b)))
    by (intros a; apply String.eqb_refl).
  rewrite (list_eqb_refl _ String.eqb_refl).
  now rewrite String.eqb_refl.
Qed.

End CmpEqual.

(** What Observe reports as [ResourceLateInitialized] for a desired state
    and a fetched record: the copy taken before differs from the state
    after the fill. *)
Definition lateInitialized (desired : AccessTokenParameters)
    (accessToken : option Gitlab.ProjectAccessToken) : bool :=
  negb (cmp_Equal (DeepCopy desired)
          (lateInitializeProjectAccessToken desired accessToken)).

Lemma lateInitialize_idempotent (desired : AccessTokenParameters)
    (accessToken : option Gitlab.ProjectAccessToken) :
  lateInitializeProjectAccessToken
    (lateInitializeProjectAccessToken desired accessToken) accessToken
  = lateInitializeProjectAccessToken desired accessToken.
Proof.
  destruct accessToken as [tok|]; [|reflexivity].
  unfold lateInitializeProjectAccessToken; cbn.
  destruct (AccessLevel desired), (ExpiresAt desired), (Gitlab.ExpiresAt tok);
    reflexivity.
Qed.

(** Observe touches the desired state through late initialization only. *)
Lemma Observe_ForProvider (nf : option Gitlab.Response -> bool) (e : external)
    (now : Time) (cr : AccessToken) :
  exists (cr' : AccessToken) (at_ : option Gitlab.ProjectAccessToken),
    managed (Observe nf e now (MgAccessToken cr)) = MgAccessToken cr'
    /\ ForProvider cr'
       = lateInitializeProjectAccessToken (ForProvider cr) at_
    /\ ExternalNameAnnotation cr' = ExternalNameAnnotation cr.
Proof.
  unfold Observe.
  destruct (String.eqb (GetExternalName cr) "");
    [exists cr, None; repeat split|].
  destruct (Strconv.Atoi (GetExternalName cr)) as [id|err];
    [|exists cr, None; repeat split].
  destruct (ProjectID (ForProvider cr)) as [pid|];
    [|exists cr, None; repeat split].
  destruct (Projects.GetProjectAccessToken (client e) pid id)
    as [[at_ res] [err|]].
  - destruct (nf res); exists cr, None; repeat split.
  - destruct at_ as [tok|]; [|exists cr, None; repeat split].
    eexists; exists (Some tok). cbn. repeat split.
Qed.

(** C5. Late initialization keeps every field the caller had set and
    never touches [ProjectID] (nor its reference and selector), [Name],
    [Scopes] and [RotateThreshold]; it changes only an unset [AccessLevel]
    or an unset [ExpiresAt], which it fills from the observed record; and
    Observe changes the desired state in no other way. *)
Theorem lateInitialize_frame :
  forall (desired : AccessTokenParameters)
         (accessToken : option Gitlab.ProjectAccessToken),
    ProjectID (lateInitializeProjectAccessToken desired accessToken)
    = ProjectID desired
    /\ ProjectIDRef (lateInitializeProjectAccessToken desired accessToken)
       = ProjectIDRef desired
    /\ ProjectIDSelector (lateInitializeProjectAccessToken desired accessToken)
       = ProjectIDSelector desired
    /\ Name (lateInitializeProjectAccessToken desired accessToken)
       = Name desired
    /\ Scopes (lateInitializeProjectAccessToken desired accessToken)
       = Scopes desired
    /\ RotateThreshold (lateInitializeProjectAccessToken desired accessToken)
       = RotateThreshold desired
    /\ match AccessLevel desired with
       | Some a =>
           AccessLevel (lateInitializeProjectAccessToken desired accessToken)
           = Some a
       | None =>
           AccessLevel (lateInitializeProjectAccessToken desired accessToken)
           = option_map Gitlab.AccessLevel accessToken
       end
    /\ match ExpiresAt desired with
       | Some t =>
           ExpiresAt (lateInitializeProjectAccessToken desired accessToken)
           = Some t
       | None =>
           ExpiresAt (lateInitializeProjectAccessToken desired accessToken)
           = match accessToken with
             | Some tok => Gitlab.ExpiresAt tok
             | None => None
             end
       end
    /\ (forall (nf : option Gitlab.Response -> bool) (e : external)
               (now : Time) (cr : AccessToken),
           ForProvider cr = desired ->
           exists (cr' : AccessToken) (at_ : option Gitlab.ProjectAccessToken),
             managed (Observe nf e now (MgAccessToken cr)) = MgAccessToken cr'
             /\ ForProvider cr'
                = lateInitializeProjectAccessToken desired at_).
Proof.
  intros desired accessToken.
  repeat match goal with |- _ /\ _ => split end.
  1-6: destruct accessToken; reflexivity.
  - destruct accessToken as [tok|], (AccessLevel desired) eqn:E; cbn;
      rewrite ?E; reflexivity.
  - destruct accessToken as [tok|], (ExpiresAt desired) eqn:E; cbn;
      rewrite ?E; try reflexivity.
    destruct (Gitlab.ExpiresAt tok); reflexivity.
  - intros nf e now cr <-.
    destruct (Observe_ForProvider nf e now cr) as (cr' & at_ & H1 & H2 & _).
    now exists cr', at_.
Qed.

(** Drift is kept: a caller's access level of 30 and expiration survive a
    record that reports level 40 and another expiration. *)
Example lateInitialize_keeps_drift :
  lateInitializeProjectAccessToken
    {| ProjectID := Some "7"; ProjectIDRef := None; ProjectIDSelector := None;
       ExpiresAt := Some (midnightUTC 738900); RotateThreshold := None;
       AccessLevel := Some 30; Scopes := ["api"]; Name := "ci" |}
    (Some sampleToken)
  = {| ProjectID := Some "7"; ProjectIDRef := None; ProjectIDSelector := None;
       ExpiresAt := Some (midnightUTC 738900); RotateThreshold := None;
       AccessLevel := Some 30; Scopes := ["api"]; Name := "ci" |}.
Proof. reflexivity. Qed.

Lemma lateInitialized_second_run (desired : AccessTokenParameters)
    (accessToken : option Gitlab.ProjectAccessToken) :
  lateInitialized (lateInitializeProjectAccessToken desired accessToken)
    accessToken = false.
Proof.
  unfold lateInitialized, DeepCopy.
  rewrite lateInitialize_idempotent, cmp_Equal_refl. reflexivity.
Qed.

(** An Observe that found the resource, run again on the resource it
    left, with the same remote record: nothing is late-initialized. *)
Lemma Observe_again (nf : option Gitlab.Response -> bool) (e : external)
    (now1 now2 : Time) (cr cr1 : AccessToken) (o1 : ExternalObservation)
    (cs : list RemoteCall) :
  Observe nf e now1 (MgAccessToken cr)
  = {| completion := Returned o1 None; managed := MgAccessToken cr1;
       calls := cs |} ->
  ResourceExists o1 = true ->
  exists (o2 : ExternalObservation) (cr2 : AccessToken),
    Observe nf e now2 (MgAccessToken cr1)
    = {| completion := Returned o2 None; managed := MgAccessToken cr2;
         calls := cs |}
    /\ ResourceExists o2 = true
    /\ ResourceLateInitialized o2 = false
    /\ ForProvider cr2 = ForProvider cr1.
Proof.
  unfold Observe at 1. intros H Hex.
  destruct (String.eqb (GetExternalName cr) "") eqn:Ename;
    [inversion H; subst; discriminate|].
  destruct (Strconv.Atoi (GetExternalName cr)) as [id|err] eqn:Eid;
    [|inversion H; subst; discriminate].
  destruct (ProjectID (ForProvider cr)) as [pid|] eqn:Epid;
    [|inversion H; subst; discriminate].
  destruct (Projects.GetProjectAccessToken (client e) pid id)
    as [[at_ res] [err|]] eqn:Eget.
  { destruct (nf res); inversion H; subst; discriminate. }
  destruct at_ as [tok|]; [|discriminate].
  unfold finish in H. injection H as Ho Hcr Hcs. subst cs. clear Ho.
  assert (Hn : GetExternalName cr1 = GetExternalName cr)
    by (subst cr1; reflexivity).
  assert (Hf : ForProvider cr1
               = lateInitializeProjectAccessToken (ForProvider cr) (Some tok))
    by (subst cr1; reflexivity).
  assert (Hp : ProjectID (ForProvider cr1) = Some pid)
    by (rewrite Hf; exact Epid).
  clear Hcr.
  unfold Observe. rewrite Hn, Ename, Eid, Hp, Eget.
  eexists; eexists. split; [reflexivity|].
  cbn [ResourceExists ResourceLateInitialized ForProvider SetConditions
       setForProvider setAtProvider].
  split; [reflexivity|]. rewrite Hf. split.
  - apply (lateInitialized_second_run (ForProvider cr) (Some tok)).
  - apply (lateInitialize_idempotent (ForProvider cr) (Some tok)).
Qed.

(** C6. Late initialization is idempotent: applied to its own result with
    the same observed record it changes nothing, so the second run
    reports [lateInitialized = false]; the same holds of a second Observe
    of the resource the first one left. *)
Theorem lateInitialize_twice :
  forall (desired : AccessTokenParameters)
         (accessToken : option Gitlab.ProjectAccessToken),
    lateInitializeProjectAccessToken
      (lateInitializeProjectAccessToken desired accessToken) accessToken
    = lateInitializeProjectAccessToken desired accessToken
    /\ lateInitialized
         (lateInitializeProjectAccessToken desired accessToken) accessToken
       = false
    /\ (forall (nf : option Gitlab.Response -> bool) (e : external)
               (now1 now2 : Time) (cr cr1 : AccessToken)
               (o1 : ExternalObservation) (cs : list RemoteCall),
           ForProvider cr = desired ->
           Observe nf e now1 (MgAccessToken cr)
           = {| completion := Returned o1 None;
                managed := MgAccessToken cr1; calls := cs |} ->
           ResourceExists o1 = true ->
           exists (o2 : ExternalObservation) (cr2 : AccessToken),
             Observe nf e now2 (MgAccessToken cr1)
             = {| completion := Returned o2 None;
                  managed := MgAccessToken cr2; calls := cs |}
             /\ ResourceLateInitialized o2 = false
             /\ ForProvider cr2 = ForProvider cr1).
Proof.
  intros desired accessToken. split; [|split].
  - apply lateInitialize_idempotent.
  - apply lateInitialized_second_run.
  - intros nf e now1 now2 cr cr1 o1 cs _ H Hex.
    destruct (Observe_again nf e now1 now2 cr cr1 o1 cs H Hex)
      as (o2 & cr2 & H2 & _ & Hl & Hf).
    now exists o2, cr2.
Qed.

(** The first Observe of a resource with unset optional fields fills them
    and says so; the second one reports no late initialization. *)
Example Observe_first_run_late_initializes :
  ResourceLateInitialized
    match completion
            (Observe statusNotFound (stubClient (Some sampleToken, None, None))
               (midnightUTC 738880)
               (MgAccessToken
                  (sampleResource (Some "42") (Some "7") None emptyObservation)))
    with
    | Returned o _ => o
    | Panicked => noObservation
    end = true.
Proof. reflexivity. Qed.

Example Observe_second_run_reports_nothing :
  match managed
          (Observe statusNotFound (stubClient (Some sampleToken, None, None))
             (midnightUTC 738880)
             (MgAccessToken
                (sampleResource (Some "42") (Some "7") None emptyObservation)))
  with
  | MgAccessToken cr1 =>
      match completion
              (Observe statusNotFound
                 (stubClient (Some sampleToken, None, None))
                 (midnightUTC 738881) (MgAccessToken cr1))
      with
      | Returned o2 None =>
          ResourceExists o2 && negb (ResourceLateInitialized o2)
      | _ => false
      end
  | MgOther => false
  end = true.
Proof. reflexivity. Qed.

(** ** Observe: a resource that does not exist *)

Lemma Observe_unbound (nf : option Gitlab.Response -> bool) (e : external)
    (now : Time) (cr : AccessToken) :
  GetExternalName cr = "" ->
  Observe nf e now (MgAccessToken cr)
  = {| completion := Returned noObservation None;
       managed := MgAccessToken cr; calls := [] |}.
Proof. intros H. unfold Observe. rewrite H. reflexivity. Qed.

Lemma Atoi_nonempty (s : string) (id : Z) :
  Strconv.Atoi s = Ok id -> String.eqb s "" = false.
Proof. destruct s; [discriminate|reflexivity]. Qed.

Lemma Observe_fetch_failed (nf : option Gitlab.Response -> bool) (e : external)
    (now : Time) (cr : AccessToken) (pid : string) (id : Z)
    (at_ : option Gitlab.ProjectAccessToken) (res : option Gitlab.Response)
    (err : error) :
  Strconv.Atoi (GetExternalName cr) = Ok id ->
  ProjectID (ForProvider cr) = Some pid ->
  Projects.GetProjectAccessToken (client e) pid id = (at_, res, Some err) ->
  Observe nf e now (MgAccessToken cr)
  = {| completion :=
         Returned noObservation
           (if nf res then None
            else Some (Wrapped err errAccessTokentNotFound));
       managed := MgAccessToken cr;
       calls := [CallGet pid id] |}.
Proof.
  intros Hid Hpid Hget. unfold Observe.
  rewrite (Atoi_nonempty _ _ Hid), Hid, Hpid, Hget.
  destruct (nf res); reflexivity.
Qed.

(** C7. Observe of a resource without identity binding (an empty external
    name) reports that it does not exist, with no error, no remote call
    and the resource untouched; and when the fetch answers "not found",
    Observe reports non-existence with no error as well. *)
Theorem Observe_nonexistent :
  forall (nf : option Gitlab.Response -> bool) (e : external) (now : Time)
         (cr : AccessToken),
    (GetExternalName cr = "" ->
     Observe nf e now (MgAccessToken cr)
     = {| completion := Returned noObservation None;
          managed := MgAccessToken cr; calls := [] |})
    /\ (forall (pid : string) (id : Z)
               (at_ : option Gitlab.ProjectAccessToken)
               (res : option Gitlab.Response) (err : error),
           Strconv.Atoi (GetExternalName cr) = Ok id ->
           ProjectID (ForProvider cr) = Some pid ->
           Projects.GetProjectAccessToken (client e) pid id
           = (at_, res, Some err) ->
           nf res = true ->
           Observe nf e now (MgAccessToken cr)
           = {| completion := Returned noObservation None;
                managed := MgAccessToken cr; calls := [CallGet pid id] |})
    /\ ResourceExists noObservation = false.
Proof.
  intros nf e now cr. split; [|split].
  - apply Observe_unbound.
  - intros pid id at_ res err Hid Hpid Hget Hnf.
    rewrite (Observe_fetch_failed nf e now cr pid id at_ res err Hid Hpid Hget).
    now rewrite Hnf.
  - reflexivity.
Qed.

Lemma Observe_nonexistent_witness :
  Observe statusNotFound (stubClient (Some sampleToken, None, None))
    (midnightUTC 738880)
    (MgAccessToken (sampleResource None (Some "7") None emptyObservation))
  = {| completion := Returned noObservation None;
       managed :=
         MgAccessToken (sampleResource None (Some "7") None emptyObservation);
       calls := [] |}
  /\ Observe statusNotFound
       (stubClient (None, Some {| Gitlab.StatusCode := 404 |},
                    Some transportError))
       (midnightUTC 738880)
       (MgAccessToken (sampleResource (Some "42") (Some "7") None emptyObservation))
     = {| completion := Returned noObservation None;
          managed :=
            MgAccessToken
              (sampleResource (Some "42") (Some "7") None emptyObservation);
          calls := [CallGet "7" 42] |}.
Proof.
  split.
  - exact (proj1 (Observe_nonexistent statusNotFound
                    (stubClient (Some sampleToken, None, None))
                    (midnightUTC 738880)
                    (sampleResource None (Some "7") None emptyObservation))
             eq_refl).
  - exact (proj1 (proj2 (Observe_nonexistent statusNotFound
                           (stubClient (None, Some {| Gitlab.StatusCode := 404 |},
                                        Some transportError))
                           (midnightUTC 738880)
                           (sampleResource (Some "42") (Some "7") None
                              emptyObservation)))
             "7" 42 None (Some {| Gitlab.StatusCode := 404 |}) transportError
             eq_refl eq_refl eq_refl eq_refl).
Defined.

(** ** Validation before any remote call *)

(** C8. Create of a resource with [ProjectID] unset fails with the
    missing-project validation error, makes no remote call and leaves the
    resource untouched; Delete of a resource whose external name is not an
    integer fails with a validation error and makes no remote call. *)
Theorem validation_before_remote_call :
  forall (e : external) (cr : AccessToken),
    (ProjectID (ForProvider cr) = None ->
     Create e (MgAccessToken cr)
     = {| completion :=
            Returned noCreation (Some (errors_New errMissingProjectID));
          managed := MgAccessToken cr; calls := [] |})
    /\ (forall err : error,
           Strconv.Atoi (GetExternalName cr) = Fail err ->
           Delete e (MgAccessToken cr)
           = {| completion :=
                  Returned tt (Some (errors_New errExternalNameNotInt));
                managed := MgAccessToken cr; calls := [] |})
    /\ ValidationError (errors_New errMissingProjectID) = true
    /\ ValidationError (errors_New errExternalNameNotInt) = true.
Proof.
  intros e cr. repeat split.
  - intros H. unfold Create. now rewrite H.
  - intros err H. unfold Delete. now rewrite H.
Qed.

Lemma validation_before_remote_call_witness :
  Create (stubClient (Some sampleToken, None, None))
    (MgAccessToken (sampleResource None None None emptyObservation))
  = {| completion :=
         Returned noCreation (Some (errors_New errMissingProjectID));
       managed := MgAccessToken (sampleResource None None None emptyObservation);
       calls := [] |}
  /\ Delete (stubClient (Some sampleToken, None, None))
       (MgAccessToken (sampleResource (Some "4x2") (Some "7") None emptyObservation))
     = {| completion :=
            Returned tt (Some (errors_New errExternalNameNotInt));
          managed :=
            MgAccessToken
              (sampleResource (Some "4x2") (Some "7") None emptyObservation);
          calls := [] |}.
Proof.
  split.
  - exact (proj1 (validation_before_remote_call
                    (stubClient (Some sampleToken, None, None))
                    (sampleResource None None None emptyObservation))
             eq_refl).
  - exact (proj1 (proj2 (validation_before_remote_call
                           (stubClient (Some sampleToken, None, None))
                           (sampleResource (Some "4x2") (Some "7") None
                              emptyObservation)))
             (NumError "Atoi" "4x2" false) eq_refl).
Defined.

(** ** Failed remote calls *)

Lemma Create_call_failed (e : external) (cr : AccessToken) (pid : string)
    (at_ : option Gitlab.ProjectAccessToken) (res : option Gitlab.Response)
    (err : error) :
  ProjectID (ForProvider cr) = Some pid ->
  Projects.CreateProjectAccessToken (client e) pid
    (Projects.GenerateCreateProjectAccessTokenOptions (ObjectName cr)
       (ForProvider cr))
  = (at_, res, Some err) ->
  Create e (MgAccessToken cr)
  = {| completion := Returned noCreation (Some (Wrapped err errCreateFailed));
       managed := MgAccessToken cr;
       calls :=
         [CallCreate pid
            (Projects.GenerateCreateProjectAccessTokenOptions (ObjectName cr)
               (ForProvider cr))] |}.
Proof. intros Hpid Hcall. unfold Create. now rewrite Hpid, Hcall. Qed.

Lemma Update_call_failed (e : external) (now : Time) (cr : AccessToken)
    (pid : string) (id : Z) (at_ : option Gitlab.ProjectAccessToken)
    (res : option Gitlab.Response) (err : error) :
  Strconv.Atoi (GetExternalName cr) = Ok id ->
  ProjectID (ForProvider cr) = Some pid ->
  Projects.RotateProjectAccessToken (client e) pid id
    {| Gitlab.RotExpiresAt :=
         Some (rotationExpiresAt (AtProvider cr) (ForProvider cr) now) |}
  = (at_, res, Some err) ->
  Update e now (MgAccessToken cr)
  = {| completion := Returned noUpdate (Some (Wrapped err errRotationFailed));
       managed := MgAccessToken cr;
       calls :=
         [CallRotate pid id
            {| Gitlab.RotExpiresAt :=
                 Some (rotationExpiresAt (AtProvider cr) (ForProvider cr) now) |}] |}.
Proof.
  intros Hid Hpid Hcall. unfold Update.
  now rewrite (Atoi_nonempty _ _ Hid), Hid, Hpid, Hcall.
Qed.

(** A fetch that fails with a "not found" response: Observe returns no
    error at all, wrapped or not. *)
Lemma Observe_not_found_is_no_error :
  Projects.GetProjectAccessToken
    (client (stubClient (None, Some {| Gitlab.StatusCode := 404 |},
                         Some transportError))) "7" 42
  = (None, Some {| Gitlab.StatusCode := 404 |}, Some transportError)
  /\ ~ (exists (v : ExternalObservation) (msg : string),
           completion
             (Observe statusNotFound
                (stubClient (None, Some {| Gitlab.StatusCode := 404 |},
                             Some transportError))
                (midnightUTC 738880)
                (MgAccessToken
                   (sampleResource (Some "42") (Some "7") None emptyObservation)))
           = Returned v (Some (Wrapped transportError msg))).
Proof.
  split; [reflexivity|].
  intros (v & msg & H). cbv in H. discriminate H.
Qed.

(** C10, amended.  When the remote create in Create or the remote rotate
    in Update returns an error, the operation returns that error wrapped
    with its own message; when the remote fetch in Observe returns an
    error, Observe returns it wrapped unless the response is "not found",
    in which case it returns no error.  In all these cases the managed
    resource is left as it was (observed state and external name
    included) and no connection secret is emitted. *)
Theorem failed_remote_call_changes_nothing :
  forall (nf : option Gitlab.Response -> bool) (e : external) (now : Time)
         (cr : AccessToken) (pid : string)
         (at_ : option Gitlab.ProjectAccessToken)
         (res : option Gitlab.Response) (err : error),
    ProjectID (ForProvider cr) = Some pid ->
    (forall id : Z,
        Strconv.Atoi (GetExternalName cr) = Ok id ->
        Projects.GetProjectAccessToken (client e) pid id = (at_, res, Some err) ->
        Observe nf e now (MgAccessToken cr)
        = {| completion :=
               Returned noObservation
                 (if nf res then None
                  else Some (Wrapped err errAccessTokentNotFound));
             managed := MgAccessToken cr;
             calls := [CallGet pid id] |})
    /\ (Projects.CreateProjectAccessToken (client e) pid
          (Projects.GenerateCreateProjectAccessTokenOptions (ObjectName cr)
             (ForProvider cr))
        = (at_, res, Some err) ->
        completion (Create e (MgAccessToken cr))
        = Returned noCreation (Some (Wrapped err errCreateFailed))
        /\ managed (Create e (MgAccessToken cr)) = MgAccessToken cr
        /\ emitted CreationDetails (Create e (MgAccessToken cr)) = [])
    /\ (forall id : Z,
           Strconv.Atoi (GetExternalName cr) = Ok id ->
           Projects.RotateProjectAccessToken (client e) pid id
             {| Gitlab.RotExpiresAt :=
                  Some (rotationExpiresAt (AtProvider cr) (ForProvider cr) now) |}
           = (at_, res, Some err) ->
           completion (Update e now (MgAccessToken cr))
           = Returned noUpdate (Some (Wrapped err errRotationFailed))
           /\ managed (Update e now (MgAccessToken cr)) = MgAccessToken cr
           /\ emitted UpdateDetails (Update e now (MgAccessToken cr)) = []).
Proof.
  intros nf e now cr pid at_ res err Hpid. split; [|split].
  - intros id Hid Hget.
    exact (Observe_fetch_failed nf e now cr pid id at_ res err Hid Hpid Hget).
  - intros Hcall.
    rewrite (Create_call_failed e cr pid at_ res err Hpid Hcall).
    repeat split.
  - intros id Hid Hcall.
    rewrite (Update_call_failed e now cr pid id at_ res err Hid Hpid Hcall).
    repeat split.
Qed.

Lemma failed_remote_call_changes_nothing_witness :
  completion
    (Update (stubClient (None, None, Some transportError)) (midnightUTC 738886)
       (MgAccessToken
          (sampleResource (Some "42") (Some "7") None
             (CopyFromToken emptyObservation sampleToken))))
  = Returned noUpdate (Some (Wrapped transportError errRotationFailed))
  /\ managed
       (Update (stubClient (None, None, Some transportError))
          (midnightUTC 738886)
          (MgAccessToken
             (sampleResource (Some "42") (Some "7") None
                (CopyFromToken emptyObservation sampleToken))))
     = MgAccessToken
         (sampleResource (Some "42") (Some "7") None
            (CopyFromToken emptyObservation sampleToken))
  /\ emitted UpdateDetails
       (Update (stubClient (None, None, Some transportError))
          (midnightUTC 738886)
          (MgAccessToken
             (sampleResource (Some "42") (Some "7") None
                (CopyFromToken emptyObservation sampleToken))))
     = [].
Proof.
  exact (proj2 (proj2 (failed_remote_call_changes_nothing statusNotFound
                         (stubClient (None, None, Some transportError))
                         (midnightUTC 738886)
                         (sampleResource (Some "42") (Some "7") None
                            (CopyFromToken emptyObservation sampleToken))
                         "7" None None transportError eq_refl))
           42 eq_refl eq_refl).
Defined.

(** ** Update of a resource without project *)

Lemma Update_without_project (e : external) (now : Time) (cr : AccessToken)
    (id : Z) :
  Strconv.Atoi (GetExternalName cr) = Ok id ->
  ProjectID (ForProvider cr) = None ->
  Update e now (MgAccessToken cr)
  = {| completion := Panicked; managed := MgAccessToken cr; calls := [] |}.
Proof.
  intros Hid Hpid. unfold Update.
  now rewrite (Atoi_nonempty _ _ Hid), Hid, Hpid.
Qed.

(** C1. Update of a resource bound to token 42 whose [ProjectID] is unset:
    the run makes no remote call, and it ends in a nil pointer
    dereference, not in the missing-project error that Observe, Create
    and Delete return for the same resource. *)
Theorem Update_unset_ProjectID_panics :
  Update (stubClient (Some sampleToken, None, None)) (midnightUTC 738886)
    (MgAccessToken (sampleResource (Some "42") None None emptyObservation))
  = {| completion := Panicked;
       managed :=
         MgAccessToken (sampleResource (Some "42") None None emptyObservation);
       calls := [] |}
  /\ completion
       (Observe statusNotFound (stubClient (Some sampleToken, None, None))
          (midnightUTC 738886)
          (MgAccessToken (sampleResource (Some "42") None None emptyObservation)))
     = Returned noObservation (Some (errors_New errMissingProjectID))
  /\ completion
       (Create (stubClient (Some sampleToken, None, None))
          (MgAccessToken (sampleResource (Some "42") None None emptyObservation)))
     = Returned noCreation (Some (errors_New errMissingProjectID))
  /\ completion
       (Delete (stubClient (Some sampleToken, None, None))
          (MgAccessToken (sampleResource (Some "42") None None emptyObservation)))
     = Returned tt (Some (errors_New errMissingProjectID)).
Proof. repeat split. Qed.

(** ** Observe: what is left of the previous observation *)

(** The observed state a run left on the resource. *)
Definition observedAfter {A : Type} (r : Run A) : option AccessTokenObservation :=
  match managed r with
  | MgAccessToken cr => Some (AtProvider cr)
  | MgOther => None
  end.

Lemma CopyFromToken_replaced (o : AccessTokenObservation)
    (tok : Gitlab.ProjectAccessToken) :
  TokenID (CopyFromToken o tok) = Some (Gitlab.ID tok)
  /\ ObsName (CopyFromToken o tok) = Some (Gitlab.Name tok)
  /\ ObsActive (CopyFromToken o tok) = Some (Gitlab.Active tok)
  /\ ObsRevoked (CopyFromToken o tok) = Some (Gitlab.Revoked tok)
  /\ ObsCreatedAt (CopyFromToken o tok)
     = match Gitlab.CreatedAt tok with
       | Some c => Some c
       | None => ObsCreatedAt o
       end
  /\ ObsExpiresAt (CopyFromToken o tok)
     = match Gitlab.ExpiresAt tok with
       | Some x => Some x
       | None => ObsExpiresAt o
       end.
Proof. repeat split. Qed.

Lemma CopyFromToken_with_dates (o1 o2 : AccessTokenObservation)
    (tok : Gitlab.ProjectAccessToken) :
  Gitlab.CreatedAt tok <> None -> Gitlab.ExpiresAt tok <> None ->
  CopyFromToken o1 tok = CopyFromToken o2 tok.
Proof.
  intros Hc He. unfold CopyFromToken.
  destruct (Gitlab.CreatedAt tok); [|contradiction].
  destruct (Gitlab.ExpiresAt tok); [|contradiction].
  reflexivity.
Qed.

(** C2. Two successful Observe runs that fetch the same record, one that
    reports no [CreatedAt] and no [ExpiresAt], from two previous
    observations: the observed states they leave differ, each keeping the
    expiration it had before. *)
Theorem Observe_keeps_stale_timestamps :
  observedAfter
    (Observe statusNotFound (stubClient (Some sampleTokenNoDates, None, None))
       (midnightUTC 738880)
       (MgAccessToken
          (sampleResource (Some "42") (Some "7") None emptyObservation)))
  = Some (CopyFromToken emptyObservation sampleTokenNoDates)
  /\ observedAfter
       (Observe statusNotFound
          (stubClient (Some sampleTokenNoDates, None, None))
          (midnightUTC 738880)
          (MgAccessToken
             (sampleResource (Some "42") (Some "7") None
                (expiringAt (midnightUTC 738887)))))
     = Some (CopyFromToken (expiringAt (midnightUTC 738887)) sampleTokenNoDates)
  /\ ObsExpiresAt (CopyFromToken emptyObservation sampleTokenNoDates) = None
  /\ ObsExpiresAt
       (CopyFromToken (expiringAt (midnightUTC 738887)) sampleTokenNoDates)
     = Some (midnightUTC 738887)
  /\ CopyFromToken emptyObservation sampleTokenNoDates
     <> CopyFromToken (expiringAt (midnightUTC 738887)) sampleTokenNoDates.
Proof.
  repeat split. discriminate.
Qed.

(** * Further properties *)

(** ** The identity binding: [strconv.Itoa] read back by [strconv.Atoi] *)
Section AtoiItoa.

(** The number a decimal numeral denotes, read digit by digit as [digits]
    reads a string. *)
Fixpoint uint_value (u : Decimal.uint) (acc : Z) : Z :=
  match u with
  | Decimal.Nil => acc
  | Decimal.D0 l => uint_value l (acc * 10 + 0)
  | Decimal.D1 l => uint_value l (acc * 10 + 1)
  | Decimal.D2 l => uint_value l (acc * 10 + 2)
  | Decimal.D3 l => uint_value l (acc * 10 + 3)
  | Decimal.D4 l => uint_value l (acc * 10 + 4)
  | Decimal.D5 l => uint_value l (acc * 10 + 5)
  | Decimal.D6 l => uint_value l (acc * 10 + 6)
  | Decimal.D7 l => uint_value l (acc * 10 + 7)
  | Decimal.D8 l => uint_value l (acc * 10 + 8)
  | Decimal.D9 l => uint_value l (acc * 10 + 9)
  end.

Lemma digits_string_of_uint (u : Decimal.uint) (acc : Z) :
  Strconv.digits (NilEmpty.string_of_uint u) acc = Some (uint_value u acc).
Proof.
  revert acc. induction u; intros acc; cbn [NilEmpty.string_of_uint uint_value];
    [reflexivity | ..];
    cbn [Strconv.digits]; change (Strconv.digit_of _) with (Some 0) ||
    change (Strconv.digit_of _) with (Some 1) ||
    change (Strconv.digit_of _) with (Some 2) ||
    change (Strconv.digit_of _) with (Some 3) ||
    change (Strconv.digit_of _) with (Some 4) ||
    change (Strconv.digit_of _) with (Some 5) ||
    change (Strconv.digit_of _) with (Some 6) ||
    change (Strconv.digit_of _) with (Some 7) ||
    change (Strconv.digit_of _) with (Some 8) ||
    change (Strconv.digit_of _) with (Some 9); apply IHu.
Qed.

Lemma uint_value_acc (u : Decimal.uint) (a : positive) :
  uint_value u (Z.pos a) = Z.pos (Pos.of_uint_acc u a).
Proof.
  revert a. induction u; intros a; cbn [uint_value Pos.of_uint_acc];
    [reflexivity | ..];
    match goal with
    | |- uint_value _ ?z = Z.pos (Pos.of_uint_acc _ ?p) =>
        replace z with (Z.pos p) by lia
    end; apply IHu.
Qed.

Lemma uint_value_of_uint (u : Decimal.uint) :
  uint_value u 0 = Z.of_N (Pos.of_uint u).
Proof.
  induction u; cbn [uint_value Pos.of_uint]; [reflexivity | exact IHu | ..];
    cbn [Z.mul Z.add Z.of_N]; apply uint_value_acc.
Qed.

Lemma uint_value_to_uint (p : positive) :
  uint_value (Pos.to_uint p) 0 = Z.pos p.
Proof.
  rewrite uint_value_of_uint, DecimalPos.Unsigned.of_to. reflexivity.
Qed.

Lemma string_of_uint_nonempty (u : Decimal.uint) :
  u <> Decimal.Nil ->
  exists c r, NilEmpty.string_of_uint u = String c r
              /\ Strconv.is_sign c = false.
Proof.
  destruct u; [contradiction | ..]; intros _; eexists; eexists;
    (split; [reflexivity | reflexivity]).
Qed.

Lemma uint_value_ge (u : Decimal.uint) (acc : Z) :
  0 <= acc -> acc <= uint_value u acc.
Proof.
  revert acc. induction u; intros acc Hacc; cbn [uint_value]; [lia | ..];
    match goal with
    | |- _ <= uint_value _ ?z =>
        specialize (IHu z ltac:(lia)); lia
    end.
Qed.

Lemma ParseUint_loop_string_of_uint (u : Decimal.uint) (acc : Z) :
  0 <= acc ->
  uint_value u acc <= Strconv.maxUint64 ->
  Strconv.ParseUint_loop (NilEmpty.string_of_uint u) acc
  = Strconv.ScanOk (uint_value u acc).
Proof.
  assert (Hmax : Strconv.maxUint64 = 18446744073709551615) by reflexivity.
  revert acc. induction u; intros acc Hacc Hle;
    cbn [NilEmpty.string_of_uint uint_value Strconv.ParseUint_loop] in *;
    [reflexivity | ..];
    match goal with
    | |- context [Strconv.digit_of ?c] =>
        let v := eval vm_compute in (Strconv.digit_of c) in
        change (Strconv.digit_of c) with v
    end;
    cbv beta iota zeta;
    match type of Hle with
    | uint_value _ ?z <= _ =>
        pose proof (uint_value_ge u z ltac:(lia)) as Hge;
        rewrite Hmax in *;
        change (18446744073709551615 / 10 + 1) with 1844674407370955162;
        destruct (Z.leb_spec 1844674407370955162 acc); [lia|];
        destruct (Z.ltb_spec 18446744073709551615 z); [lia|];
        rewrite <- Hmax in Hle; apply IHu; lia
    end.
Qed.

Lemma Atoi_fast_unsigned (u : Decimal.uint) :
  u <> Decimal.Nil ->
  Strconv.Atoi_fast (NilEmpty.string_of_uint u) = Ok (uint_value u 0).
Proof.
  intros Hnil. destruct (string_of_uint_nonempty _ Hnil) as (c & r & Hs & Hc).
  assert (Hm : Ascii.eqb c "-" = false).
  { unfold Strconv.is_sign in Hc. now apply orb_false_iff in Hc. }
  unfold Strconv.Atoi_fast. rewrite Hs, Hc, <- Hs.
  rewrite digits_string_of_uint, Hm. reflexivity.
Qed.

Lemma Atoi_fast_negative (u : Decimal.uint) :
  u <> Decimal.Nil ->
  Strconv.Atoi_fast (String "-" (NilEmpty.string_of_uint u))
  = Ok (- uint_value u 0).
Proof.
  intros Hnil. destruct (string_of_uint_nonempty _ Hnil) as (c & r & Hs & Hc).
  unfold Strconv.Atoi_fast.
  change (Strconv.is_sign "-") with true. cbv beta iota zeta.
  rewrite Hs, <- Hs.
  rewrite digits_string_of_uint.
  change (Ascii.eqb "-" "-") with true. reflexivity.
Qed.

Lemma Atoi_slow_unsigned (u : Decimal.uint) :
  u <> Decimal.Nil ->
  uint_value u 0 <= MaxInt64 ->
  Strconv.Atoi_slow (NilEmpty.string_of_uint u) = Ok (uint_value u 0).
Proof.
  intros Hnil Hle. destruct (string_of_uint_nonempty _ Hnil) as (c & r & Hs & Hc).
  assert (Hm : Ascii.eqb c "-" = false).
  { unfold Strconv.is_sign in Hc. now apply orb_false_iff in Hc. }
  assert (H63 : MaxInt64 = 2 ^ 63 - 1) by reflexivity.
  unfold Strconv.Atoi_slow. rewrite Hs, Hc, <- Hs.
  rewrite ParseUint_loop_string_of_uint
    by (try reflexivity; unfold Strconv.maxUint64; lia).
  rewrite Hm. cbn [negb andb].
  destruct (Z.leb_spec (2 ^ 63) (uint_value u 0)); [lia | reflexivity].
Qed.

Lemma Atoi_slow_negative (u : Decimal.uint) :
  u <> Decimal.Nil ->
  uint_value u 0 <= 2 ^ 63 ->
  Strconv.Atoi_slow (String "-" (NilEmpty.string_of_uint u))
  = Ok (- uint_value u 0).
Proof.
  intros Hnil Hle. destruct (string_of_uint_nonempty _ Hnil) as (c & r & Hs & Hc).
  unfold Strconv.Atoi_slow.
  change (Strconv.is_sign "-") with true.
  change (Ascii.eqb "-" "-") with true. cbv beta iota zeta.
  rewrite Hs, <- Hs.
  rewrite ParseUint_loop_string_of_uint
    by (try reflexivity; unfold Strconv.maxUint64; lia).
  cbn [negb andb].
  destruct (Z.ltb_spec (2 ^ 63) (uint_value u 0)); [lia | reflexivity].
Qed.

(** The external name written by [strconv.Itoa] parses back to the same
    integer. *)
Lemma Atoi_Itoa (n : Z) : int64 n -> Strconv.Atoi (Strconv.Itoa n) = Ok n.
Proof.
  intros Hn. unfold int64, MinInt64, MaxInt64 in Hn.
  destruct n as [|p|p]; [reflexivity | |];
    unfold Strconv.Itoa; cbn [Z.to_int NilZero.string_of_int];
    pose proof (DecimalPos.Unsigned.to_uint_nonnil p) as Hnil;
    pose proof (uint_value_to_uint p) as Hv;
    assert (E : NilZero.string_of_uint (Pos.to_uint p)
                = NilEmpty.string_of_uint (Pos.to_uint p))
      by (destruct (Pos.to_uint p); [contradiction | reflexivity ..]);
    rewrite E; unfold Strconv.Atoi;
    match goal with
    | |- (if ?b then _ else _) = _ => destruct b
    end.
  - rewrite Atoi_fast_unsigned by exact Hnil. now rewrite Hv.
  - rewrite Atoi_slow_unsigned
      by (try exact Hnil; rewrite Hv; unfold MaxInt64; lia).
    now rewrite Hv.
  - rewrite Atoi_fast_negative by exact Hnil. now rewrite Hv.
  - rewrite Atoi_slow_negative by (try exact Hnil; rewrite Hv; lia).
    now rewrite Hv.
Qed.

Lemma Itoa_nonempty (n : Z) : int64 n -> String.eqb (Strconv.Itoa n) "" = false.
Proof. intros Hn. exact (Atoi_nonempty _ _ (Atoi_Itoa n Hn)). Qed.

End AtoiItoa.

(** ** The identity binding across operations *)

Lemma Observe_calls (nf : option Gitlab.Response -> bool) (e : external)
    (now : Time) (cr : AccessToken) (pid : string) (id : Z) :
  Strconv.Atoi (GetExternalName cr) = Ok id ->
  ProjectID (ForProvider cr) = Some pid ->
  calls (Observe nf e now (MgAccessToken cr)) = [CallGet pid id].
Proof.
  intros Hid Hpid. unfold Observe.
  rewrite (Atoi_nonempty _ _ Hid), Hid, Hpid.
  destruct (Projects.GetProjectAccessToken (client e) pid id)
    as [[[tok|] res] [err|]]; try destruct (nf res); reflexivity.
Qed.

Lemma Delete_calls (e : external) (cr : AccessToken) (pid : string) (id : Z) :
  Strconv.Atoi (GetExternalName cr) = Ok id ->
  ProjectID (ForProvider cr) = Some pid ->
  calls (Delete e (MgAccessToken cr)) = [CallRevoke pid id].
Proof.
  intros Hid Hpid. unfold Delete. rewrite Hid, Hpid.
  destruct (Projects.RevokeProjectAccessToken (client e) pid id).
  reflexivity.
Qed.

(** X1. A successful Create sends the object's name, the desired scopes
    and the access level and expiration the caller set; it returns the
    token's secret under the key "token", records the observation and
    binds the token's ID as external name, which parses back to that ID:
    the Observe that follows fetches exactly the created token. *)
Theorem Create_binds_identity :
  forall (nf : option Gitlab.Response -> bool) (e : external) (now : Time)
         (cr : AccessToken) (pid : string) (tok : Gitlab.ProjectAccessToken)
         (res : option Gitlab.Response),
    ProjectID (ForProvider cr) = Some pid ->
    int64 (Gitlab.ID tok) ->
    Projects.CreateProjectAccessToken (client e) pid
      (Projects.GenerateCreateProjectAccessTokenOptions (ObjectName cr)
         (ForProvider cr))
    = (Some tok, res, None) ->
    exists cr' : AccessToken,
      Create e (MgAccessToken cr)
      = {| completion :=
             Returned {| ExternalNameAssigned := true;
                         CreationDetails := [("token", Gitlab.Token tok)] |}
               None;
           managed := MgAccessToken cr';
           calls :=
             [CallCreate pid
                {| Gitlab.OptName := Some (ObjectName cr);
                   Gitlab.OptScopes := Some (Scopes (ForProvider cr));
                   Gitlab.OptAccessLevel := AccessLevel (ForProvider cr);
                   Gitlab.OptExpiresAt := ExpiresAt (ForProvider cr) |}] |}
      /\ GetExternalName cr' = Strconv.Itoa (Gitlab.ID tok)
      /\ Strconv.Atoi (GetExternalName cr') = Ok (Gitlab.ID tok)
      /\ AtProvider cr' = CopyFromToken (AtProvider cr) tok
      /\ ForProvider cr' = ForProvider cr
      /\ calls (Observe nf e now (MgAccessToken cr'))
         = [CallGet pid (Gitlab.ID tok)].
Proof.
  intros nf e now cr pid tok res Hpid Hid Hcall.
  eexists. split.
  - unfold Create. rewrite Hpid, Hcall.
    unfold Projects.GenerateCreateProjectAccessTokenOptions.
    destruct (AccessLevel (ForProvider cr)), (ExpiresAt (ForProvider cr));
      reflexivity.
  - cbn [GetExternalName SetExternalName ExternalNameAnnotation AtProvider
         ForProvider setAtProvider].
    split; [reflexivity|]. split; [now apply Atoi_Itoa|].
    split; [reflexivity|]. split; [reflexivity|].
    apply Observe_calls; [now apply Atoi_Itoa | exact Hpid].
Qed.

Lemma Create_binds_identity_witness :
  exists cr' : AccessToken,
    managed (Create (stubClient (Some sampleToken, None, None))
               (MgAccessToken
                  (sampleResource None (Some "7") None emptyObservation)))
    = MgAccessToken cr'
    /\ GetExternalName cr' = "42"
    /\ calls (Observe statusNotFound
                (stubClient (Some sampleToken, None, None))
                (midnightUTC 738886) (MgAccessToken cr'))
       = [CallGet "7" 42].
Proof.
  destruct (Create_binds_identity statusNotFound
              (stubClient (Some sampleToken, None, None))
              (midnightUTC 738886)
              (sampleResource None (Some "7") None emptyObservation)
              "7" sampleToken None eq_refl
              (proj1 (int64b_spec 42) eq_refl)
              eq_refl)
    as (cr' & Hrun & Hname & _ & _ & _ & Hobs).
  exists cr'. split; [now rewrite Hrun|]. split; [exact Hname | exact Hobs].
Defined.

(** X2. A successful rotation re-binds the resource to the token the
    remote service returned: Update returns the new secret under the key
    "token", refreshes the observation, leaves the desired state alone,
    and a Delete that follows revokes the new token's ID, whatever ID the
    resource was bound to before. *)
Theorem Update_rebinds_identity :
  forall (e : external) (now : Time) (cr : AccessToken) (pid : string)
         (id : Z) (tok : Gitlab.ProjectAccessToken)
         (res : option Gitlab.Response),
    Strconv.Atoi (GetExternalName cr) = Ok id ->
    ProjectID (ForProvider cr) = Some pid ->
    int64 (Gitlab.ID tok) ->
    Projects.RotateProjectAccessToken (client e) pid id
      {| Gitlab.RotExpiresAt :=
           Some (rotationExpiresAt (AtProvider cr) (ForProvider cr) now) |}
    = (Some tok, res, None) ->
    exists cr' : AccessToken,
      Update e now (MgAccessToken cr)
      = {| completion :=
             Returned {| UpdateDetails := [("token", Gitlab.Token tok)] |}
               None;
           managed := MgAccessToken cr';
           calls :=
             [CallRotate pid id
                {| Gitlab.RotExpiresAt :=
                     Some (rotationExpiresAt (AtProvider cr) (ForProvider cr)
                             now) |}] |}
      /\ Strconv.Atoi (GetExternalName cr') = Ok (Gitlab.ID tok)
      /\ AtProvider cr' = CopyFromToken (AtProvider cr) tok
      /\ ForProvider cr' = ForProvider cr
      /\ calls (Delete e (MgAccessToken cr'))
         = [CallRevoke pid (Gitlab.ID tok)].
Proof.
  intros e now cr pid id tok res Hid Hpid Hrange Hcall.
  eexists. split.
  - unfold Update. rewrite (Atoi_nonempty _ _ Hid), Hid, Hpid, Hcall.
    reflexivity.
  - cbn [GetExternalName SetExternalName ExternalNameAnnotation AtProvider
         ForProvider setAtProvider].
    split; [now apply Atoi_Itoa|].
    split; [reflexivity|]. split; [reflexivity|].
    apply Delete_calls; [now apply Atoi_Itoa | exact Hpid].
Qed.

(** Token 57, which the service returns when token 42 is rotated. *)
Definition rotatedToken : Gitlab.ProjectAccessToken :=
  {| Gitlab.ID := 57; Gitlab.Name := "ci";
     Gitlab.CreatedAt := Some (midnightUTC 738886);
     Gitlab.ExpiresAt := Some (midnightUTC 738888);
     Gitlab.Active := true; Gitlab.Revoked := false;
     Gitlab.Token := "glpat-rotated"; Gitlab.AccessLevel := 40 |}.

Lemma Update_rebinds_identity_witness :
  exists cr' : AccessToken,
    managed (Update (stubClient (Some rotatedToken, None, None))
               (midnightUTC 738886)
               (MgAccessToken
                  (sampleResource (Some "42") (Some "7") None
                     (CopyFromToken emptyObservation sampleToken))))
    = MgAccessToken cr'
    /\ calls (Delete (stubClient (Some rotatedToken, None, None))
                (MgAccessToken cr'))
       = [CallRevoke "7" 57].
Proof.
  destruct (Update_rebinds_identity
              (stubClient (Some rotatedToken, None, None))
              (midnightUTC 738886)
              (sampleResource (Some "42") (Some "7") None
                 (CopyFromToken emptyObservation sampleToken))
              "7" 42 rotatedToken None eq_refl eq_refl
              (proj1 (int64b_spec 57) eq_refl) eq_refl)
    as (cr' & Hrun & _ & _ & _ & Hdel).
  exists cr'. split; [now rewrite Hrun | exact Hdel].
Defined.

(** ** Rotation timing *)

(** X3. When the caller's threshold [rt] is at least one day (and its
    double is a [Duration]), the expiration Update requests lies more
    than [rt] after [now]: a token with that expiration does not expire
    within the threshold at any instant up to [now + rt - 24h], so it does
    not qualify for rotation again at once. *)
Theorem rotation_outlives_threshold :
  forall (observed : AccessTokenObservation) (desired : AccessTokenParameters)
         (now now' : Time) (rt : Duration),
    RotateThreshold desired = Some rt ->
    24 * Hour <= rt < 2 ^ 62 ->
    now' <= now + (rt - 24 * Hour) ->
    now + 2 * rt - 24 * Hour < rotationExpiresAt observed desired now
    /\ ExpiresWithin (expiringAt (rotationExpiresAt observed desired now))
         (Duration_Abs rt) now'
       = false.
Proof.
  intros observed desired now now' rt Hrt Hrange Hnow'.
  pose proof (Truncate_day_bounds (now + rotationTTL observed desired)) as Hb.
  fold (Add now (rotationTTL observed desired)) in Hb.
  fold (rotationExpiresAt observed desired now) in Hb.
  unfold Add in Hb.
  assert (Hday : 24 * Hour = 86400000000000) by reflexivity.
  rewrite Hday in *.
  assert (Httl : 2 * rt <= rotationTTL observed desired).
  { unfold rotationTTL. rewrite Hrt. unfold GoTime.max.
    rewrite Duration_mul_2 by lia. lia. }
  split; [lia|].
  unfold ExpiresWithin, expiringAt, Before, Add; cbn [ObsExpiresAt].
  rewrite Duration_Abs_idem.
  rewrite Duration_Abs_Zabs by (unfold minDuration, MinInt64; lia).
  apply Z.ltb_ge. lia.
Qed.

Lemma rotation_outlives_threshold_witness :
  ExpiresWithin
    (expiringAt
       (rotationExpiresAt (CopyFromToken emptyObservation sampleToken)
          (sampleParameters (Some "7") (Some (30 * Hour)))
          (midnightUTC 738886)))
    (Duration_Abs (30 * Hour)) (midnightUTC 738886)
  = false.
Proof.
  refine (proj2 (rotation_outlives_threshold
                   (CopyFromToken emptyObservation sampleToken)
                   (sampleParameters (Some "7") (Some (30 * Hour)))
                   (midnightUTC 738886) (midnightUTC 738886) (30 * Hour)
                   eq_refl _ _));
    unfold Hour, Minute, Second, Nanosecond; lia.
Defined.

(** X4. The lifetime Update asks for is a [Duration] that is never
    shorter than the total duration of the observed token, whatever the
    threshold, even one whose double wraps around. *)
Theorem rotationTTL_bounds :
  forall (observed : AccessTokenObservation) (desired : AccessTokenParameters),
    TotalDuration observed <= rotationTTL observed desired
    /\ int64 (rotationTTL observed desired).
Proof.
  intros observed desired.
  pose proof (TotalDuration_int64 observed) as Htd.
  unfold rotationTTL, GoTime.max.
  destruct (RotateThreshold desired) as [rt|]; [|split; [lia | exact Htd]].
  pose proof (wrap64_int64 (rt * 2)) as Hw. fold (Duration_mul rt 2) in Hw.
  unfold int64 in *. split; lia.
Qed.

(** X5. Without a threshold in the desired state, Update asks for the
    observed total duration only, while Observe applies the 7-day default:
    when the observed token lived less than 7 days, the expiration that
    Update requests is already within the default threshold, at [now] and
    at every later instant. *)
Theorem rotation_without_threshold_is_due :
  forall (observed : AccessTokenObservation) (desired : AccessTokenParameters)
         (now now' : Time),
    RotateThreshold desired = None ->
    TotalDuration observed < 7 * 24 * Hour ->
    now <= now' ->
    ExpiresWithin (expiringAt (rotationExpiresAt observed desired now))
      DefaultAccessTokenRotateThreshold now'
    = true.
Proof.
  intros observed desired now now' Hrt Htd Hnow.
  assert (Httl : rotationTTL observed desired = TotalDuration observed)
    by (unfold rotationTTL; now rewrite Hrt).
  pose proof (Truncate_day_bounds (now + rotationTTL observed desired)) as Hb.
  fold (Add now (rotationTTL observed desired)) in Hb.
  fold (rotationExpiresAt observed desired now) in Hb.
  unfold Add in Hb. rewrite Httl in Hb.
  unfold ExpiresWithin, expiringAt, Before, Add; cbn [ObsExpiresAt].
  change (Duration_Abs DefaultAccessTokenRotateThreshold) with (7 * 24 * Hour).
  apply Z.ltb_lt. lia.
Qed.

Lemma rotation_without_threshold_is_due_witness :
  ExpiresWithin
    (expiringAt
       (rotationExpiresAt (CopyFromToken emptyObservation sampleToken)
          (sampleParameters (Some "7") None) (midnightUTC 738886)))
    DefaultAccessTokenRotateThreshold (midnightUTC 738886)
  = true.
Proof.
  refine (rotation_without_threshold_is_due
            (CopyFromToken emptyObservation sampleToken)
            (sampleParameters (Some "7") None)
            (midnightUTC 738886) (midnightUTC 738886) eq_refl _ _).
  - reflexivity.
  - apply Z.le_refl.
Defined.

(** ** More on the observation model *)

(** X6. [ExpiresWithin] is monotone: a token that expires within a
    threshold at some instant also expires within every threshold of
    larger magnitude at every later instant. *)
Theorem ExpiresWithin_monotone :
  forall (o : AccessTokenObservation) (d1 d2 : Duration) (now1 now2 : Time),
    Duration_Abs d1 <= Duration_Abs d2 ->
    now1 <= now2 ->
    ExpiresWithin o d1 now1 = true ->
    ExpiresWithin o d2 now2 = true.
Proof.
  intros o d1 d2 now1 now2 Hd Hnow. unfold ExpiresWithin, Before, Add.
  destruct (ObsExpiresAt o) as [e|]; [|discriminate].
  rewrite !Z.ltb_lt. lia.
Qed.

Lemma ExpiresWithin_monotone_witness :
  ExpiresWithin (expiringAt (midnightUTC 738887)) (- (96 * Hour))
    (midnightUTC 738886)
  = true.
Proof.
  refine (ExpiresWithin_monotone (expiringAt (midnightUTC 738887))
            (72 * Hour) (- (96 * Hour)) (midnightUTC 738885)
            (midnightUTC 738886) _ _ eq_refl).
  - vm_compute. discriminate.
  - vm_compute. discriminate.
Defined.

(** X7. Observe never reports a revoked token, or a token whose reported
    expiration is already past, as up to date, whatever the threshold. *)
Theorem Observe_revoked_or_expired :
  forall (nf : option Gitlab.Response -> bool) (e : external) (now : Time)
         (cr : AccessToken) (pid : string) (id : Z)
         (tok : Gitlab.ProjectAccessToken) (res : option Gitlab.Response),
    Strconv.Atoi (GetExternalName cr) = Ok id ->
    ProjectID (ForProvider cr) = Some pid ->
    Projects.GetProjectAccessToken (client e) pid id = (Some tok, res, None) ->
    Gitlab.Revoked tok = true
    \/ (exists x : Time, Gitlab.ExpiresAt tok = Some x /\ x < now) ->
    exists o : ExternalObservation,
      completion (Observe nf e now (MgAccessToken cr)) = Returned o None
      /\ ResourceExists o = true
      /\ ResourceUpToDate o = false.
Proof.
  intros nf e now cr pid id tok res Hid Hpid Hget Hbad.
  unfold Observe. rewrite (Atoi_nonempty _ _ Hid), Hid, Hpid, Hget.
  eexists. split; [reflexivity|]. split; [reflexivity|].
  cbn [ResourceUpToDate AtProvider SetConditions setForProvider setAtProvider].
  destruct Hbad as [Hrev | (x & Hx & Hlt)].
  - unfold IsRevoked, CopyFromToken; cbn [ObsRevoked]. now rewrite Hrev.
  - apply andb_false_iff. right. apply negb_false_iff.
    unfold ExpiresWithin, CopyFromToken, Before, Add; cbn [ObsExpiresAt].
    rewrite Hx. apply Z.ltb_lt.
    match goal with
    | |- x + - Duration_Abs ?d < now =>
        pose proof (Duration_Abs_nonneg d)
    end. lia.
Qed.

Lemma Observe_revoked_or_expired_witness :
  exists o : ExternalObservation,
    completion
      (Observe statusNotFound (stubClient (Some sampleToken, None, None))
         (midnightUTC 738890)
         (MgAccessToken
            (sampleResource (Some "42") (Some "7") (Some 0) emptyObservation)))
    = Returned o None
    /\ ResourceExists o = true
    /\ ResourceUpToDate o = false.
Proof.
  refine (Observe_revoked_or_expired statusNotFound
            (stubClient (Some sampleToken, None, None)) (midnightUTC 738890)
            (sampleResource (Some "42") (Some "7") (Some 0) emptyObservation)
            "7" 42 sampleToken None eq_refl eq_refl eq_refl _).
  right. exists (midnightUTC 738887). split; [reflexivity|].
  vm_compute. reflexivity.
Defined.

(** X8. [TotalDuration] is always a [Duration]: with both timestamps set
    it is their difference clamped to the range of [int64], and the
    365-day default otherwise. *)
Theorem TotalDuration_clamped :
  forall o : AccessTokenObservation,
    int64 (TotalDuration o)
    /\ TotalDuration o
       = match ObsExpiresAt o, ObsCreatedAt o with
         | Some x, Some c => Z.max MinInt64 (Z.min MaxInt64 (x - c))
         | _, _ => 365 * 24 * Hour
         end.
Proof.
  intros o. split; [apply TotalDuration_int64|].
  unfold TotalDuration.
  destruct (ObsExpiresAt o) as [x|]; [|reflexivity].
  destruct (ObsCreatedAt o) as [c|]; [|reflexivity].
  unfold Sub. destruct (int64b (x - c)) eqn:E.
  - apply int64b_spec in E. unfold int64 in E. lia.
  - assert (Hn : ~ int64 (x - c)).
    { intros H. apply int64b_spec in H. congruence. }
    unfold int64 in Hn.
    destruct (Z.ltb_spec x c);
      unfold minDuration, maxDuration, MinInt64, MaxInt64 in *; lia.
Qed.

(** X9. Copying a record into the observation is idempotent, it always
    sets [TokenID], [Name], [Active] and [Revoked] (so [IsRevoked] is the
    record's flag), and when the record carries both timestamps the
    result does not depend on the previous observation at all. *)
Theorem CopyFromToken_idempotent :
  forall (o o' : AccessTokenObservation) (tok : Gitlab.ProjectAccessToken),
    CopyFromToken (CopyFromToken o tok) tok = CopyFromToken o tok
    /\ IsRevoked (CopyFromToken o tok) = Gitlab.Revoked tok
    /\ TokenID (CopyFromToken o tok) = Some (Gitlab.ID tok)
    /\ match Gitlab.CreatedAt tok, Gitlab.ExpiresAt tok with
       | Some _, Some _ => CopyFromToken o tok = CopyFromToken o' tok
       | _, _ => True
       end.
Proof.
  intros o o' tok. unfold CopyFromToken, IsRevoked; cbn.
  destruct (Gitlab.CreatedAt tok), (Gitlab.ExpiresAt tok); repeat split.
Qed.

(** ** Error paths and invariants of the operations *)

Lemma Atoi_fails_with_NumError (s : string) (err : error) :
  Strconv.Atoi s = Fail err ->
  exists (f n : string) (r : bool), err = NumError f n r.
Proof.
  unfold Strconv.Atoi, Strconv.Atoi_fast, Strconv.Atoi_slow,
    Strconv.syntaxError, Strconv.rangeError.
  intros H.
  repeat match type of H with
         | (if ?b then _ else _) = _ => destruct b
         | match ?x with _ => _ end = _ => destruct x
         | (let _ := _ in _) = _ => cbv zeta in H
         end;
    try discriminate H; injection H as <-; now eexists; eexists; eexists.
Qed.

(** X10. Observe and Update check the identity binding before any remote
    call: an external name that is not an integer makes both return the
    parse error wrapped as a validation error, and Observe of a bound
    resource without [ProjectID] returns the missing-project error; the
    resource is untouched and nothing is called. *)
Theorem identity_checked_before_remote_call :
  forall (nf : option Gitlab.Response -> bool) (e : external) (now : Time)
         (cr : AccessToken),
    (forall err : error,
        GetExternalName cr <> "" ->
        Strconv.Atoi (GetExternalName cr) = Fail err ->
        Observe nf e now (MgAccessToken cr)
        = {| completion :=
               Returned noObservation (Some (Wrapped err errFailedParseID));
             managed := MgAccessToken cr; calls := [] |}
        /\ Update e now (MgAccessToken cr)
           = {| completion :=
                  Returned noUpdate (Some (Wrapped err errFailedParseID));
                managed := MgAccessToken cr; calls := [] |}
        /\ ValidationError (Wrapped err errFailedParseID) = true)
    /\ (forall id : Z,
           Strconv.Atoi (GetExternalName cr) = Ok id ->
           ProjectID (ForProvider cr) = None ->
           Observe nf e now (MgAccessToken cr)
           = {| completion :=
                  Returned noObservation
                    (Some (errors_New errMissingProjectID));
                managed := MgAccessToken cr; calls := [] |}).
Proof.
  intros nf e now cr. split.
  - intros err Hne Hfail.
    assert (Hnb : String.eqb (GetExternalName cr) "" = false)
      by now apply String.eqb_neq.
    destruct (Atoi_fails_with_NumError _ _ Hfail) as (f & n & r & ->).
    unfold Observe, Update. rewrite Hnb, Hfail. repeat split.
  - intros id Hid Hpid. unfold Observe.
    now rewrite (Atoi_nonempty _ _ Hid), Hid, Hpid.
Qed.

Lemma identity_checked_before_remote_call_witness :
  Observe statusNotFound (stubClient (Some sampleToken, None, None))
    (midnightUTC 738886)
    (MgAccessToken (sampleResource (Some "4x2") (Some "7") None emptyObservation))
  = {| completion :=
         Returned noObservation
           (Some (Wrapped (NumError "Atoi" "4x2" false) errFailedParseID));
       managed :=
         MgAccessToken
           (sampleResource (Some "4x2") (Some "7") None emptyObservation);
       calls := [] |}.
Proof.
  refine (proj1 (proj1 (identity_checked_before_remote_call statusNotFound
                          (stubClient (Some sampleToken, None, None))
                          (midnightUTC 738886)
                          (sampleResource (Some "4x2") (Some "7") None
                             emptyObservation))
                   (NumError "Atoi" "4x2" false) _ eq_refl)).
  discriminate.
Defined.

(** A run that did not return a nil error: it returned an error or
    panicked. *)
Definition failed {A : Type} (r : Run A) : bool :=
  match completion r with
  | Returned _ None => false
  | _ => true
  end.

(** X11. An operation that returns an error or panics has not modified
    the managed resource: on every input, the four operations change the
    resource only on the path that returns a nil error. *)
Theorem failure_leaves_resource_unchanged :
  forall (nf : option Gitlab.Response -> bool) (e : external) (now : Time)
         (mg : Managed),
    (failed (Observe nf e now mg) = true -> managed (Observe nf e now mg) = mg)
    /\ (failed (Create e mg) = true -> managed (Create e mg) = mg)
    /\ (failed (Update e now mg) = true -> managed (Update e now mg) = mg)
    /\ managed (Delete e mg) = mg.
Proof.
  intros nf e now mg. destruct mg as [cr|]; [|repeat split].
  repeat match goal with |- _ /\ _ => split end.
  - unfold Observe.
    destruct (String.eqb (GetExternalName cr) ""); [reflexivity|].
    destruct (Strconv.Atoi (GetExternalName cr)); [|reflexivity].
    destruct (ProjectID (ForProvider cr)) as [pid|]; [|reflexivity].
    destruct (Projects.GetProjectAccessToken (client e) pid a)
      as [[[tok|] res] [err|]]; try destruct (nf res);
      try reflexivity; discriminate.
  - unfold Create.
    destruct (ProjectID (ForProvider cr)) as [pid|]; [|reflexivity].
    destruct (Projects.CreateProjectAccessToken _ _ _)
      as [[[tok|] res] [err|]]; try reflexivity; discriminate.
  - unfold Update.
    destruct (String.eqb (GetExternalName cr) ""); [reflexivity|].
    destruct (Strconv.Atoi (GetExternalName cr)); [|reflexivity].
    destruct (ProjectID (ForProvider cr)) as [pid|]; [|reflexivity].
    destruct (Projects.RotateProjectAccessToken _ _ _ _)
      as [[[tok|] res] [err|]]; try reflexivity; discriminate.
  - unfold Delete.
    destruct (Strconv.Atoi (GetExternalName cr)); [|reflexivity].
    destruct (ProjectID (ForProvider cr)) as [pid|]; [|reflexivity].
    destruct (Projects.RevokeProjectAccessToken _ _ _). reflexivity.
Qed.

(** X12. Every operation makes at most one remote call, and only the call
    of its own kind: Observe only fetches, Create only creates, Update
    only rotates and Delete only revokes. *)
Theorem at_most_one_remote_call :
  forall (nf : option Gitlab.Response -> bool) (e : external) (now : Time)
         (mg : Managed),
    (calls (Observe nf e now mg) = []
     \/ exists pid id, calls (Observe nf e now mg) = [CallGet pid id])
    /\ (calls (Create e mg) = []
        \/ exists pid opt, calls (Create e mg) = [CallCreate pid opt])
    /\ (calls (Update e now mg) = []
        \/ exists pid id opt,
             calls (Update e now mg) = [CallRotate pid id opt])
    /\ (calls (Delete e mg) = []
        \/ exists pid id, calls (Delete e mg) = [CallRevoke pid id]).
Proof.
  intros nf e now mg. destruct mg as [cr|];
    [|repeat split; left; reflexivity].
  repeat match goal with |- _ /\ _ => split end.
  - unfold Observe.
    destruct (String.eqb (GetExternalName cr) ""); [now left|].
    destruct (Strconv.Atoi (GetExternalName cr)) as [id|]; [|now left].
    destruct (ProjectID (ForProvider cr)) as [pid|]; [|now left].
    right. exists pid, id.
    destruct (Projects.GetProjectAccessToken (client e) pid id)
      as [[[tok|] res] [err|]]; try destruct (nf res); reflexivity.
  - unfold Create.
    destruct (ProjectID (ForProvider cr)) as [pid|]; [|now left].
    right. eexists; eexists.
    destruct (Projects.CreateProjectAccessToken _ _ _)
      as [[[tok|] res] [err|]]; reflexivity.
  - unfold Update.
    destruct (String.eqb (GetExternalName cr) ""); [now left|].
    destruct (Strconv.Atoi (GetExternalName cr)) as [id|]; [|now left].
    destruct (ProjectID (ForProvider cr)) as [pid|]; [|now left].
    right. eexists; eexists; eexists.
    destruct (Projects.RotateProjectAccessToken _ _ _ _)
      as [[[tok|] res] [err|]]; reflexivity.
  - unfold Delete.
    destruct (Strconv.Atoi (GetExternalName cr)) as [id|]; [|now left].
    destruct (ProjectID (ForProvider cr)) as [pid|]; [|now left].
    right. exists pid, id.
    destruct (Projects.RevokeProjectAccessToken _ _ _). reflexivity.
Qed.

(** X13. Delete of a resource with an integer identity and a project
    revokes that token and succeeds exactly when the revocation returned
    no error; any revocation error, whatever the response (a "not found"
    one included), comes back wrapped as a deletion failure. *)
Theorem Delete_result :
  forall (e : external) (cr : AccessToken) (pid : string) (id : Z)
         (res : option Gitlab.Response) (err : option error),
    Strconv.Atoi (GetExternalName cr) = Ok id ->
    ProjectID (ForProvider cr) = Some pid ->
    Projects.RevokeProjectAccessToken (client e) pid id = (res, err) ->
    Delete e (MgAccessToken cr)
    = {| completion :=
           Returned tt
             match err with
             | Some cause => Some (Wrapped cause errDeleteFailed)
             | None => None
             end;
         managed := MgAccessToken cr;
         calls := [CallRevoke pid id] |}
    /\ (failed (Delete e (MgAccessToken cr)) = false <-> err = None).
Proof.
  intros e cr pid id res err Hid Hpid Hcall.
  assert (Hrun : Delete e (MgAccessToken cr)
                 = finish (MgAccessToken cr) [CallRevoke pid id] tt
                     (errors_Wrap err errDeleteFailed))
    by (unfold Delete; now rewrite Hid, Hpid, Hcall).
  rewrite Hrun. unfold failed, finish, errors_Wrap; cbn [completion].
  destruct err as [cause|]; (split; [reflexivity|]); split;
    intros H; try reflexivity; discriminate H.
Qed.

Lemma Delete_result_witness :
  Delete (stubClient (None, Some {| Gitlab.StatusCode := 404 |},
                      Some transportError))
    (MgAccessToken (sampleResource (Some "42") (Some "7") None emptyObservation))
  = {| completion :=
         Returned tt (Some (Wrapped transportError errDeleteFailed));
       managed :=
         MgAccessToken
           (sampleResource (Some "42") (Some "7") None emptyObservation);
       calls := [CallRevoke "7" 42] |}.
Proof.
  exact (proj1 (Delete_result
                  (stubClient (None, Some {| Gitlab.StatusCode := 404 |},
                               Some transportError))
                  (sampleResource (Some "42") (Some "7") None emptyObservation)
                  "7" 42 (Some {| Gitlab.StatusCode := 404 |})
                  (Some transportError) eq_refl eq_refl eq_refl)).
Defined.

Lemma lateInitialize_changes (desired : AccessTokenParameters)
    (tok : Gitlab.ProjectAccessToken) :
  cmp_Equal (DeepCopy desired)
    (lateInitializeProjectAccessToken desired (Some tok))
  = match AccessLevel desired, ExpiresAt desired, Gitlab.ExpiresAt tok with
    | None, _, _ => false
    | Some _, None, Some _ => false
    | _, _, _ => true
    end.
Proof.
  unfold DeepCopy.
  destruct desired as [pid ref sel exp rt lvl scopes name].
  destruct lvl as [a|].
  - destruct exp as [t|].
    + apply cmp_Equal_refl.
    + destruct (Gitlab.ExpiresAt tok) as [x|] eqn:Ex.
      * unfold cmp_Equal, lateInitializeProjectAccessToken;
          cbn [ProjectID ProjectIDRef ProjectIDSelector ExpiresAt
               RotateThreshold AccessLevel Scopes Name].
        rewrite Ex. cbn [option_eqb].
        now rewrite !andb_false_r.
      * unfold lateInitializeProjectAccessToken;
          cbn [ProjectID ProjectIDRef ProjectIDSelector ExpiresAt
               RotateThreshold AccessLevel Scopes Name].
        rewrite Ex. apply cmp_Equal_refl.
  - unfold cmp_Equal, lateInitializeProjectAccessToken;
      cbn [ProjectID ProjectIDRef ProjectIDSelector ExpiresAt
           RotateThreshold AccessLevel Scopes Name option_eqb].
    now rewrite !andb_false_r.
Qed.

(** X14. After a successful fetch, Observe reports
    [ResourceLateInitialized] exactly when it filled something in: the
    desired [AccessLevel] was unset, or the desired [ExpiresAt] was unset
    and the fetched record has an expiration. *)
Theorem Observe_lateInitialized_iff :
  forall (nf : option Gitlab.Response -> bool) (e : external) (now : Time)
         (cr : AccessToken) (pid : string) (id : Z)
         (tok : Gitlab.ProjectAccessToken) (res : option Gitlab.Response),
    Strconv.Atoi (GetExternalName cr) = Ok id ->
    ProjectID (ForProvider cr) = Some pid ->
    Projects.GetProjectAccessToken (client e) pid id = (Some tok, res, None) ->
    exists o : ExternalObservation,
      completion (Observe nf e now (MgAccessToken cr)) = Returned o None
      /\ (ResourceLateInitialized o = true
          <-> AccessLevel (ForProvider cr) = None
              \/ (ExpiresAt (ForProvider cr) = None
                  /\ Gitlab.ExpiresAt tok <> None)).
Proof.
  intros nf e now cr pid id tok res Hid Hpid Hget.
  unfold Observe. rewrite (Atoi_nonempty _ _ Hid), Hid, Hpid, Hget.
  eexists. split; [reflexivity|].
  cbn [ResourceLateInitialized ForProvider SetConditions setForProvider
       setAtProvider].
  rewrite lateInitialize_changes.
  destruct (AccessLevel (ForProvider cr)) as [a|],
           (ExpiresAt (ForProvider cr)) as [t|],
           (Gitlab.ExpiresAt tok) as [x|]; cbn [negb]; split;
    try (intros H; discriminate H); try (intros _; reflexivity);
    try (intros _; now left);
    try (intros _; right; split; [reflexivity | discriminate]);
    intros [H | [H1 H2]]; try discriminate; contradiction.
Qed.

Lemma Observe_lateInitialized_iff_witness :
  exists o : ExternalObservation,
    completion
      (Observe statusNotFound (stubClient (Some sampleToken, None, None))
         (midnightUTC 738886)
         (MgAccessToken
            (sampleResource (Some "42") (Some "7") None emptyObservation)))
    = Returned o None
    /\ ResourceLateInitialized o = true.
Proof.
  destruct (Observe_lateInitialized_iff statusNotFound
              (stubClient (Some sampleToken, None, None))
              (midnightUTC 738886)
              (sampleResource (Some "42") (Some "7") None emptyObservation)
              "7" 42 sampleToken None eq_refl eq_refl eq_refl)
    as (o & Hrun & Hiff).
  exists o. split; [exact Hrun|]. apply Hiff. now left.
Defined.
